(** * Expenses Tracking API: schema versioning, validation and expense store

    A shallow embedding of [src/main.py].  The SQLite tables become lists of
    rows inside a [store] record, each request handler becomes a function
    from a [store] (and the readings it takes from the clock and the uuid
    generator) to a result and a new store, and the exceptions a handler can
    raise become the [Err] branch of a result type.

    Python values are embedded as follows.
    - [str] is [string], the UTF-8 bytes of the text.  What the interpreter
      does with a text of ASCII characters is computed here; what it does
      with other characters ([str.lower], [int] on Unicode digits) follows
      its Unicode tables, which are taken as an input next to the clock.
    - [int] is [Z], without the interpreter's configurable limit on the
      number of digits [int()] and [str()] convert; a [float] is never
      computed with by this program, only received, stored and printed, so
      it is represented by its [repr].
    - a [dict] is an association list in insertion order.
    - the [data] column of [expenses] holds JSON text; the store keeps the
      value that text denotes, since [json.loads (json.dumps v) = v] for
      every value [json.dumps] accepts. *)

From Stdlib Require Import String Ascii List ZArith Lia Bool Arith.
From Stdlib Require Import Sorting.Sorted Permutation.
Import ListNotations.

Local Open Scope string_scope.
Local Open Scope list_scope.

Set Implicit Arguments.
Set Warnings "-abstract-large-number,-register-all".

(** ** Text primitives *)

Module Text.

Definition is_upper (c : ascii) : bool :=
  let n := nat_of_ascii c in (65 <=? n)%nat && (n <=? 90)%nat.

Definition lower_char (c : ascii) : ascii :=
  if is_upper c then ascii_of_nat (nat_of_ascii c + 32) else c.

(** [s.lower()] for a text of ASCII characters: the letters A-Z are
    folded. *)
Fixpoint ascii_lower (s : string) : string :=
  match s with
  | EmptyString => EmptyString
  | String c r => String (lower_char c) (ascii_lower r)
  end.

Definition is_ascii_char (c : ascii) : bool := (nat_of_ascii c <? 128)%nat.

(** [s.isascii()]: every byte is below 128. *)
Fixpoint isascii (s : string) : bool :=
  match s with
  | EmptyString => true
  | String c r => is_ascii_char c && isascii r
  end.

(** [s.startswith(p)] *)
Fixpoint startswith (s p : string) {struct p} : bool :=
  match p, s with
  | EmptyString, _ => true
  | String _ _, EmptyString => false
  | String a p', String b s' => Ascii.eqb a b && startswith s' p'
  end.

(** [needle in hay] on strings *)
Fixpoint contains (hay needle : string) : bool :=
  startswith hay needle ||
  match hay with
  | EmptyString => false
  | String _ r => contains r needle
  end.

Definition dot : ascii := "."%char.

(** [s.split(".")]: never empty, a separator opens a new segment. *)
Fixpoint split_dot (s : string) : list string :=
  match s with
  | EmptyString => [EmptyString]
  | String c r =>
      if Ascii.eqb c dot then EmptyString :: split_dot r
      else match split_dot r with
           | [] => [String c EmptyString]
           | seg :: segs => String c seg :: segs
           end
  end.

(** [s.split(".")[-1]] *)
Definition last_segment (s : string) : string :=
  List.last (split_dot s) EmptyString.

Definition is_digit (c : ascii) : bool :=
  let n := nat_of_ascii c in (48 <=? n)%nat && (n <=? 57)%nat.

Definition digit_val (c : ascii) : Z := Z.of_nat (nat_of_ascii c - 48).

Definition digit_char (d : Z) : ascii := ascii_of_nat (48 + Z.to_nat d).

(** The characters [int()] strips around an ASCII text: space, \t, \n,
    \v, \f and \r. *)
Definition is_space (c : ascii) : bool :=
  let n := nat_of_ascii c in
  (n =? 32)%nat || ((9 <=? n)%nat && (n <=? 13)%nat).

Fixpoint lstrip (s : string) : string :=
  match s with
  | String c r => if is_space c then lstrip r else s
  | EmptyString => EmptyString
  end.

(** [rstrip]: a suffix made of blanks only is dropped. *)
Fixpoint rstrip (s : string) : string :=
  match s with
  | EmptyString => EmptyString
  | String c r =>
      match rstrip r with
      | EmptyString => if is_space c then EmptyString else String c EmptyString
      | r' => String c r'
      end
  end.

Definition strip (s : string) : string := rstrip (lstrip s).

(** Decimal digits with single underscores between digits, as [int()]
    reads them.  [need_digit] holds at the start and after an
    underscore. *)
Fixpoint int_digits (acc : Z) (need_digit : bool) (s : string) : option Z :=
  match s with
  | EmptyString => if need_digit then None else Some acc
  | String c r =>
      if is_digit c then int_digits (10 * acc + digit_val c) false r
      else if Ascii.eqb c "_"%char && negb need_digit then int_digits acc true r
      else None
  end.

(** [int(s)] in base 10 for a text of ASCII characters; [None] is
    [ValueError]. *)
Definition ascii_int (s : string) : option Z :=
  match strip s with
  | String "-"%char r => option_map Z.opp (int_digits 0 true r)
  | String "+"%char r => int_digits 0 true r
  | t => int_digits 0 true t
  end.

(** Digits of a non-negative number, most significant first, put in front
    of [acc]. *)
Fixpoint digits_of (fuel : nat) (n : Z) (acc : string) : string :=
  let acc' := String (digit_char (n mod 10)) acc in
  match fuel with
  | O => acc'
  | S f => if n <? 10 then acc' else digits_of f (n / 10) acc'
  end%Z.

(** [str(n)] for an [int] *)
Definition py_str (n : Z) : string :=
  if (n <? 0)%Z then String "-"%char (digits_of (Z.to_nat (- n)) (- n) EmptyString)
  else digits_of (Z.to_nat n) n "".

(** Every character of [s] passes the test [p]. *)
Fixpoint all_chars (p : ascii -> bool) (s : string) : Prop :=
  match s with
  | EmptyString => True
  | String c r => p c = true /\ all_chars p r
  end.

Definition not_space (c : ascii) : bool := negb (is_space c).

Definition not_dot (c : ascii) : bool := negb (Ascii.eqb c dot).

End Text.

(** ** Calendar dates ([datetime.date]) *)

Module Dates.
Import Text.

Record date := mkDate { year : Z; month : Z; day : Z }.

Local Open Scope Z_scope.

Definition is_leap (y : Z) : bool :=
  (y mod 4 =? 0) && (negb (y mod 100 =? 0) || (y mod 400 =? 0)).

Definition days_in_month (y m : Z) : Z :=
  match m with
  | 1 | 3 | 5 | 7 | 8 | 10 | 12 => 31
  | 4 | 6 | 9 | 11 => 30
  | 2 => if is_leap y then 29 else 28
  | _ => 0
  end.

(** The dates a [date] object can hold: years 1 to 9999. *)
Definition valid_date (d : date) : bool :=
  (1 <=? year d) && (year d <=? 9999) && (1 <=? month d) && (month d <=? 12)
  && (1 <=? day d) && (day d <=? days_in_month (year d) (month d)).

Definition pad2 (n : Z) (rest : string) : string :=
  String (digit_char (n / 10 mod 10)) (String (digit_char (n mod 10)) rest).

Definition pad4 (n : Z) (rest : string) : string :=
  String (digit_char (n / 1000 mod 10))
    (String (digit_char (n / 100 mod 10)) (pad2 n rest)).

(** [d.isoformat()]: YYYY-MM-DD *)
Definition isoformat (d : date) : string :=
  pad4 (year d) (String "-" (pad2 (month d) (String "-" (pad2 (day d) EmptyString)))).

(** The YYYY-MM-DD form, the one [isoformat] writes and every version of
    [date.fromisoformat] reads: ten characters, ASCII digits, a date of the
    calendar. *)
Definition fromisoformat_ymd (s : string) : option date :=
  match s with
  | String y1 (String y2 (String y3 (String y4 (String "-"
      (String m1 (String m2 (String "-" (String d1 (String d2 EmptyString))))))))) =>
      if forallb is_digit [y1; y2; y3; y4; m1; m2; d1; d2] then
        let d := mkDate (1000 * digit_val y1 + 100 * digit_val y2
                         + 10 * digit_val y3 + digit_val y4)
                        (10 * digit_val m1 + digit_val m2)
                        (10 * digit_val d1 + digit_val d2) in
        if valid_date d then Some d else None
      else None
  | _ => None
  end.

(** [a < b] on dates *)
Definition date_ltb (a b : date) : bool :=
  (year a <? year b)
  || ((year a =? year b) && ((month a <? month b)
      || ((month a =? month b) && (day a <? day b)))).

Local Close Scope Z_scope.

(** [datetime.datetime]: the calendar date and the time of day as
    [isoformat] prints it (HH:MM:SS, with .ffffff when not zero). *)
Record datetime := mkDatetime { dt_date : date; dt_time : string }.

Definition dt_isoformat (t : datetime) : string :=
  (isoformat (dt_date t) ++ "T" ++ dt_time t)%string.

End Dates.

(** ** Python values and dictionaries *)

Module Py.
Import Text Dates.

(** The values that reach this program: what a JSON body decodes to, plus
    the [date] object pydantic builds for a field declared [date]. *)
Inductive pyval : Type :=
| VNone
| VBool (b : bool)
| VInt (n : Z)
| VFloat (repr : string)
| VStr (s : string)
| VDate (d : date)
| VList (items : list pyval)
| VDict (items : list (string * pyval)).

Definition dict : Type := list (string * pyval).

(** [v is None] *)
Definition is_none (v : pyval) : bool :=
  match v with VNone => true | _ => false end.

(** [bool(v)] *)
Definition truthy (v : pyval) : bool :=
  match v with
  | VNone => false
  | VBool b => b
  | VInt n => negb (n =? 0)%Z
  | VFloat r => negb (String.eqb r "0.0" || String.eqb r "-0.0")
  | VStr s => negb (String.eqb s EmptyString)
  | VDate _ => true
  | VList l => match l with [] => false | _ => true end
  | VDict l => match l with [] => false | _ => true end
  end.

(** [d[k]] as an option: the first (and, in a dict, only) entry for [k]. *)
Fixpoint lookup (d : dict) (k : string) : option pyval :=
  match d with
  | [] => None
  | (k', v) :: r => if String.eqb k' k then Some v else lookup r k
  end.

(** [d.get(k)] *)
Definition get (d : dict) (k : string) : pyval :=
  match lookup d k with Some v => v | None => VNone end.

(** [d[k] = v]: an existing key keeps its place, a new one goes last. *)
Fixpoint set (d : dict) (k : string) (v : pyval) : dict :=
  match d with
  | [] => [(k, v)]
  | (k', v') :: r => if String.eqb k' k then (k', v) :: r else (k', v') :: set r k v
  end.

(** [d.update(other)] and [{**d, **other}] *)
Definition update (d other : dict) : dict :=
  fold_left (fun acc kv => set acc (fst kv) (snd kv)) other d.

(** [{k: v for k, v in d.items() if v is not None}] *)
Definition drop_none (d : dict) : dict :=
  filter (fun kv => negb (is_none (snd kv))) d.

(** [v in opts] for a list of strings: [==] holds between strings only. *)
Definition in_strs (v : pyval) (opts : list string) : bool :=
  match v with
  | VStr s => existsb (String.eqb s) opts
  | _ => false
  end.

Definition hex_digit (n : nat) : ascii :=
  if (n <? 10)%nat then ascii_of_nat (48 + n) else ascii_of_nat (87 + n).

Definition dquote : ascii := ascii_of_nat 34.

(** One character inside a JSON string literal. *)
Definition escape_char (c : ascii) : string :=
  let n := nat_of_ascii c in
  if (n =? 34)%nat then String "\" (String dquote EmptyString)
  else if (n =? 92)%nat then "\\"
  else if (n =? 10)%nat then "\n"
  else if (n =? 13)%nat then "\r"
  else if (n =? 9)%nat then "\t"
  else if (n =? 8)%nat then "\b"
  else if (n =? 12)%nat then "\f"
  else if (n <? 32)%nat then
    ("\u00" ++ String (hex_digit (n / 16)) (String (hex_digit (n mod 16)) EmptyString))%string
  else String c EmptyString.

Fixpoint escape (s : string) : string :=
  match s with
  | EmptyString => EmptyString
  | String c r => (escape_char c ++ escape r)%string
  end.

Definition quote (s : string) : string :=
  String dquote (escape s ++ String dquote EmptyString)%string.

Definition float_literal (r : string) : string :=
  if String.eqb r "nan" then "NaN"
  else if String.eqb r "inf" then "Infinity"
  else if String.eqb r "-inf" then "-Infinity"
  else r.

Fixpoint join (sep : string) (l : list string) : string :=
  match l with
  | [] => EmptyString
  | [x] => x
  | x :: r => (x ++ sep ++ join sep r)%string
  end.

(** [json.dumps(v, ensure_ascii=False)]; [None] is the [TypeError] raised
    for an object with no JSON form, here a [date]. *)
Fixpoint json_dumps (v : pyval) : option string :=
  match v with
  | VNone => Some "null"
  | VBool true => Some "true"
  | VBool false => Some "false"
  | VInt n => Some (py_str n)
  | VFloat r => Some (float_literal r)
  | VStr s => Some (quote s)
  | VDate _ => None
  | VList l =>
      let fix items (l : list pyval) : option (list string) :=
        match l with
        | [] => Some []
        | x :: r =>
            match json_dumps x, items r with
            | Some a, Some b => Some (a :: b)
            | _, _ => None
            end
        end in
      option_map (fun parts => ("[" ++ join ", " parts ++ "]")%string) (items l)
  | VDict l =>
      let fix items (l : list (string * pyval)) : option (list string) :=
        match l with
        | [] => Some []
        | (k, x) :: r =>
            match json_dumps x, items r with
            | Some a, Some b => Some ((quote k ++ ": " ++ a)%string :: b)
            | _, _ => None
            end
        end in
      option_map (fun parts => ("{" ++ join ", " parts ++ "}")%string) (items l)
  end.

End Py.

(** ** The database *)

Module Db.
Import Text Dates Py.

(** [FieldType] *)
Inductive field_type : Type :=
| TString | TNumber | TInteger | TBoolean | TDate | TDatetime | TEnum.

Definition field_type_eqb (a b : field_type) : bool :=
  match a, b with
  | TString, TString | TNumber, TNumber | TInteger, TInteger
  | TBoolean, TBoolean | TDate, TDate | TDatetime, TDatetime
  | TEnum, TEnum => true
  | _, _ => false
  end.

(** A row of [schema_fields], as [load_fields] hands it on: the two integer
    columns read back through [bool], the JSON list of [enum_values]
    decoded, [None] for an empty or NULL column. *)
Record field : Type := mkField {
  f_key : string;
  f_label : string;
  f_type : field_type;
  f_required : bool;
  f_enabled : bool;
  f_description : option string;
  f_enum_values : option (list string)
}.

(** The row of [schema_meta] named 'expense'. *)
Record meta : Type := mkMeta {
  m_version : string;
  m_updated_at : string
}.

(** A row of [expenses]. *)
Record expense : Type := mkExpense {
  e_id : string;
  e_created_at : string;
  e_updated_at : string;
  e_schema_version : string;
  e_data : dict
}.

Record store : Type := mkStore {
  schema_meta : option meta;
  schema_fields : list field;
  expenses : list expense
}.

Definition with_meta (s : store) (m : meta) : store :=
  mkStore (Some m) (schema_fields s) (expenses s).

Definition with_fields (s : store) (fs : list field) : store :=
  mkStore (schema_meta s) fs (expenses s).

Definition with_expenses (s : store) (es : list expense) : store :=
  mkStore (schema_meta s) (schema_fields s) es.

(** [SELECT * FROM expenses WHERE id=?] then [fetchone()] *)
Definition select_expense (s : store) (id : string) : option expense :=
  find (fun e => String.eqb (e_id e) id) (expenses s).

(** [SELECT ... FROM schema_fields WHERE key=?] then [fetchone()] *)
Definition select_field (s : store) (key : string) : option field :=
  find (fun f => String.eqb (f_key f) key) (schema_fields s).

(** Insertion into a list sorted by [created_at] (compared as text, the
    column's collation), latest first.  SQL leaves the order of equal stamps
    open; here the earlier row stays in front. *)
Fixpoint insert_desc (e : expense) (l : list expense) : list expense :=
  match l with
  | [] => [e]
  | x :: r =>
      if String.ltb (e_created_at e) (e_created_at x) then x :: insert_desc e r
      else e :: l
  end.

(** [ORDER BY created_at DESC] *)
Definition order_by_created_desc (l : list expense) : list expense :=
  fold_right insert_desc [] l.

End Db.

(** ** Request handlers *)

Module Api.
Import Text Dates Py Db.

(** What the [detail] of an [HTTPException] is built from. *)
Inductive detail : Type :=
| Unauthorized
| NotFound
| FieldNotFound
| FieldKeyExists
| MissingRequiredField (key : string)
| InvalidEnum (key : string) (value : pyval) (allowed : list string).

Inductive exn : Type :=
| HTTPException (status_code : nat) (d : detail)
| TypeError
| KeyError (key : string)
| ValueError
| AttributeError
| OperationalError.

Inductive result (A : Type) : Type :=
| Ok (a : A)
| Err (e : exn).

Arguments Ok {A} a.
Arguments Err {A} e.

Definition bind {A B : Type} (r : result A) (k : A -> result B) : result B :=
  match r with
  | Ok a => k a
  | Err e => Err e
  end.

Notation "'do' x <- r ; k" := (bind r (fun x => k))
  (at level 10, x name, r at level 100, k at level 200).

(** The value returned, [d] when the call raised. *)
Definition value_or {A : Type} (d : A) (r : result A) : A :=
  match r with
  | Ok a => a
  | Err _ => d
  end.

(** A handler reads and writes the database and either returns or raises. *)
Definition handler (A : Type) : Type := store -> result A * store.

(** What a request finds outside the database: the configured [API_KEY],
    the local calendar date ([date.today()]), the UTC clock
    ([datetime.utcnow()]) and the next [uuid.uuid4().hex]; a request reads
    the clock at one instant.  Then the interpreter: [unicode_lower] is
    [str.lower] on a text with a character outside ASCII, [unicode_int] is
    [int()] on such a text, and [iso_other_forms] is what
    [date.fromisoformat] makes of a text that is not a YYYY-MM-DD date
    (nothing before Python 3.11, the other ISO 8601 forms from then on).
    Nothing is assumed of the three. *)
Record env : Type := mkEnv {
  API_KEY : string;
  today : date;
  utcnow : datetime;
  uuid4_hex : string;
  unicode_lower : string -> string;
  unicode_int : string -> option Z;
  iso_other_forms : string -> option date
}.

Definition now (w : env) : string := dt_isoformat (utcnow w).

(** [s.lower()] *)
Definition str_lower (w : env) (s : string) : string :=
  if isascii s then ascii_lower s else unicode_lower w s.

(** [int(s)]; [None] is [ValueError]. *)
Definition int_of_str (w : env) (s : string) : option Z :=
  if isascii s then ascii_int s else unicode_int w s.

(** [date.fromisoformat(s)]; [None] is [ValueError]. *)
Definition date_fromisoformat (w : env) (s : string) : option date :=
  match fromisoformat_ymd s with
  | Some d => Some d
  | None => iso_other_forms w s
  end.

Definition require_key (w : env) (x_api_key : option string) : result unit :=
  if negb (String.eqb (API_KEY w) EmptyString)
     && negb (match x_api_key with
              | Some k => String.eqb k (API_KEY w)
              | None => false
              end)
  then Err (HTTPException 401 Unauthorized)
  else Ok tt.

(** The version that follows [prev] on the day [day]; the bare [except]
    turns whatever [int()] raises into a restart at 1. *)
Definition next_version (w : env) (day : string) (prev : option string) : string :=
  match prev with
  | None => (day ++ ".1")%string
  | Some prev =>
      if startswith prev day then
        match int_of_str w (last_segment prev) with
        | Some n => (day ++ "." ++ py_str (n + 1))%string
        | None => (day ++ ".1")%string
        end
      else (day ++ ".1")%string
  end.

Definition bump_schema_version (w : env) (s : store) : string * store :=
  let version :=
    next_version w (isoformat (today w)) (option_map m_version (schema_meta s)) in
  (version, with_meta s (mkMeta version (now w))).

Definition get_schema_version (w : env) (s : store) : string * store :=
  match schema_meta s with
  | None => bump_schema_version w s
  | Some row => (m_version row, s)
  end.

(** The rows [seed_schema_if_empty] inserts. *)
Definition seed_fields : list field :=
  [ mkField "date" "Fecha" TDate true true (Some "Fecha del gasto") None;
    mkField "amount" "Monto" TNumber true true (Some "Monto total") None;
    mkField "currency" "Moneda" TEnum true true (Some "Código moneda")
            (Some ["ARS"; "USD"]);
    mkField "vendor" "Proveedor" TString false true
            (Some "Proveedor / comercio") None;
    mkField "category" "Categoría" TString false true (Some "Eje principal") None;
    mkField "payment_method" "Medio de pago" TString false true
            (Some "Efectivo / tarjeta / etc.") None;
    mkField "client" "Cliente" TString false true (Some "Cliente (si aplica)") None;
    mkField "concept" "Concepto" TString false true (Some "Descripción breve") None;
    mkField "notes" "Notas" TString false true (Some "Observaciones") None;
    mkField "status" "Estado" TEnum false true
            (Some "pending_confirmation/confirmed/rejected")
            (Some ["pending_confirmation"; "confirmed"; "rejected"]) ].

(** [bump_schema_version()] called while another connection of the process
    holds an uncommitted write on the database: the SELECT goes through, the
    INSERT waits for the lock until the timeout and raises
    [OperationalError] (database is locked). *)
Definition bump_schema_version_locked : handler string := fun s =>
  (Err OperationalError, s).

(** [seed_schema_if_empty]: on an empty table the rows are inserted through
    [conn], and [bump_schema_version] is called before [conn.commit()], so
    it finds the database locked; the exception leaves the function, [conn]
    is dropped without a commit and its rows are rolled back. *)
Definition seed_schema_if_empty (w : env) : handler unit := fun s =>
  match schema_fields s with
  | [] =>
      let pending := with_fields s seed_fields in
      match bump_schema_version_locked pending with
      | (Ok _, s1) => (Ok tt, s1)
      | (Err e, _) => (Err e, s)
      end
  | _ :: _ => (Ok tt, s)
  end.

Definition load_fields (s : store) : list field := schema_fields s.

(** [enabled[k]] in [{f["key"]: f for f in fields if f["enabled"]}]: of two
    rows with one key the later one is kept. *)
Definition enabled_field (fields : list field) (k : string) : option field :=
  find (fun f => String.eqb (f_key f) k) (rev (filter f_enabled fields)).

(** The first loop of [validate_against_schema]. *)
Fixpoint check_required (fields : list field) (payload : dict) : result unit :=
  match fields with
  | [] => Ok tt
  | f :: rest =>
      if f_enabled f && f_required f && is_none (get payload (f_key f))
      then Err (HTTPException 400 (MissingRequiredField (f_key f)))
      else check_required rest payload
  end.

(** [enabled[k].get("enum_values") or []] *)
Definition enum_options (f : field) : list string :=
  match f_enum_values f with
  | Some opts => opts
  | None => []
  end.

(** The body of the second loop, for one item of the payload. *)
Definition check_enum (fields : list field) (k : string) (v : pyval) : result unit :=
  match enabled_field fields k with
  | Some f =>
      if field_type_eqb (f_type f) TEnum then
        let opts := enum_options f in
        match opts with
        | [] => Ok tt
        | _ :: _ =>
            if in_strs v opts then Ok tt
            else Err (HTTPException 400 (InvalidEnum k v opts))
        end
      else Ok tt
  | None => Ok tt
  end.

Fixpoint check_enums (fields : list field) (items : dict) : result unit :=
  match items with
  | [] => Ok tt
  | (k, v) :: rest =>
      do _ <- check_enum fields k v;
      check_enums fields rest
  end.

Definition validate_against_schema (s : store) (payload : dict) : result unit :=
  let fields := load_fields s in
  do _ <- check_required fields payload;
  check_enums fields payload.

(** *** Schema *)

Record schema_view : Type := mkSchemaView {
  sv_name : string;
  sv_version : string;
  sv_updated_at : string;
  sv_fields : list field
}.

Definition get_expense_schema (w : env) (x_api_key : option string)
  : handler schema_view := fun s =>
  match require_key w x_api_key with
  | Err e => (Err e, s)
  | Ok _ =>
      let (version, s1) := get_schema_version w s in
      (Ok (mkSchemaView "expense" version (now w) (load_fields s1)), s1)
  end.

Record CreateFieldRequest : Type := mkCreateField {
  cf_key : string;
  cf_label : string;
  cf_type : field_type;
  cf_required : option bool;
  cf_enabled : option bool;
  cf_description : option string;
  cf_enum_values : option (list string)
}.

(** [bool(x)] for an [Optional[bool]] *)
Definition bool_of (x : option bool) : bool :=
  match x with Some b => b | None => false end.

Definition create_field (w : env) (x_api_key : option string)
  (req : CreateFieldRequest) : handler schema_view := fun s =>
  match require_key w x_api_key with
  | Err e => (Err e, s)
  | Ok _ =>
      match select_field s (cf_key req) with
      | Some _ => (Err (HTTPException 409 FieldKeyExists), s)
      | None =>
          let enum_values :=
            match cf_enum_values req with
            | Some (x :: l) => Some (x :: l)
            | _ => None
            end in
          let row := mkField (cf_key req) (cf_label req) (cf_type req)
                             (bool_of (cf_required req)) (bool_of (cf_enabled req))
                             (cf_description req) enum_values in
          let s1 := with_fields s (schema_fields s ++ [row]) in
          let (_, s2) := bump_schema_version w s1 in
          get_expense_schema w x_api_key s2
      end
  end.

Record UpdateFieldRequest : Type := mkUpdateField {
  uf_label : option string;
  uf_type : option field_type;
  uf_required : option bool;
  uf_enabled : option bool;
  uf_description : option string;
  uf_enum_values : option (list string)
}.

(** [not updates]: [model_dump(exclude_none=True)] kept nothing. *)
Definition no_updates (req : UpdateFieldRequest) : bool :=
  match uf_label req, uf_type req, uf_required req, uf_enabled req,
        uf_description req, uf_enum_values req with
  | None, None, None, None, None, None => true
  | _, _, _, _, _, _ => false
  end.

Definition or_else {A : Type} (x : option A) (d : A) : A :=
  match x with Some a => a | None => d end.

(** [UPDATE schema_fields SET col=?, ... ] on one row: the columns named in
    the request take the new value, the others stay. *)
Definition apply_updates (req : UpdateFieldRequest) (f : field) : field :=
  mkField (f_key f)
          (or_else (uf_label req) (f_label f))
          (or_else (uf_type req) (f_type f))
          (or_else (uf_required req) (f_required f))
          (or_else (uf_enabled req) (f_enabled f))
          (match uf_description req with Some d => Some d | None => f_description f end)
          (match uf_enum_values req with Some l => Some l | None => f_enum_values f end).

Definition has_key (k : string) (f : field) : bool := String.eqb (f_key f) k.

Definition update_field (w : env) (x_api_key : option string)
  (field_key : string) (req : UpdateFieldRequest) : handler schema_view := fun s =>
  match require_key w x_api_key with
  | Err e => (Err e, s)
  | Ok _ =>
      match select_field s field_key with
      | None => (Err (HTTPException 404 FieldNotFound), s)
      | Some _ =>
          if no_updates req then get_expense_schema w x_api_key s
          else
            let s1 := with_fields s
              (map (fun f => if has_key field_key f then apply_updates req f else f)
                   (schema_fields s)) in
            let (_, s2) := bump_schema_version w s1 in
            get_expense_schema w x_api_key s2
      end
  end.

Definition disable (f : field) : field :=
  mkField (f_key f) (f_label f) (f_type f) (f_required f) false
          (f_description f) (f_enum_values f).

Definition delete_field (w : env) (x_api_key : option string)
  (field_key : string) (hard : bool) : handler schema_view := fun s =>
  match require_key w x_api_key with
  | Err e => (Err e, s)
  | Ok _ =>
      match select_field s field_key with
      | None => (Err (HTTPException 404 FieldNotFound), s)
      | Some _ =>
          let rows :=
            if hard then filter (fun f => negb (has_key field_key f)) (schema_fields s)
            else map (fun f => if has_key field_key f then disable f else f)
                     (schema_fields s) in
          let (_, s2) := bump_schema_version w (with_fields s rows) in
          get_expense_schema w x_api_key s2
      end
  end.

(** *** Expenses *)

Record ExpenseInput : Type := mkExpenseInput {
  i_date : date;
  i_amount : string;
  i_currency : string;
  i_vendor : option string;
  i_client : option string;
  i_category : option string;
  i_subcategory : option string;
  i_payment_method : option string;
  i_concept : option string;
  i_receipt_type : option string;
  i_receipt_number : option string;
  i_notes : option string;
  i_attachment_url : option string;
  i_attachment_id : option string;
  i_source : option string;
  i_confidence : option string;
  i_status : option string;
  i_extra : option dict
}.

Definition opt_str (x : option string) : pyval :=
  match x with Some s => VStr s | None => VNone end.

Definition opt_float (x : option string) : pyval :=
  match x with Some r => VFloat r | None => VNone end.

Definition opt_dict (x : option dict) : pyval :=
  match x with Some d => VDict d | None => VNone end.

(** [expense.model_dump()]: every declared field in declaration order, as
    the Python object the model holds, so [date] stays a [date] object. *)
Definition model_dump (e : ExpenseInput) : dict :=
  [ ("date", VDate (i_date e));
    ("amount", VFloat (i_amount e));
    ("currency", VStr (i_currency e));
    ("vendor", opt_str (i_vendor e));
    ("client", opt_str (i_client e));
    ("category", opt_str (i_category e));
    ("subcategory", opt_str (i_subcategory e));
    ("payment_method", opt_str (i_payment_method e));
    ("concept", opt_str (i_concept e));
    ("receipt_type", opt_str (i_receipt_type e));
    ("receipt_number", opt_str (i_receipt_number e));
    ("notes", opt_str (i_notes e));
    ("attachment_url", opt_str (i_attachment_url e));
    ("attachment_id", opt_str (i_attachment_id e));
    ("source", opt_str (i_source e));
    ("confidence", opt_float (i_confidence e));
    ("status", opt_str (i_status e));
    ("extra", opt_dict (i_extra e)) ].

(** [json.dumps(payload)] as an argument of [cur.execute]: the text is
    stored, and the store keeps the value it denotes. *)
Definition dumps_for_store (payload : dict) : result dict :=
  match json_dumps (VDict payload) with
  | Some _ => Ok payload
  | None => Err TypeError
  end.

Record created_view : Type := mkCreated {
  cv_id : string;
  cv_status : pyval;
  cv_stored : bool
}.

Definition create_expense (w : env) (x_api_key : option string)
  (expense : ExpenseInput) : handler created_view := fun s =>
  match require_key w x_api_key with
  | Err e => (Err e, s)
  | Ok _ =>
      let payload := model_dump expense in
      match validate_against_schema s payload with
      | Err e => (Err e, s)
      | Ok _ =>
          let exp_id := ("exp_" ++ substring 0 16 (uuid4_hex w))%string in
          let (schema_version, s1) := get_schema_version w s in
          match dumps_for_store payload with
          | Err e => (Err e, s1)
          | Ok data =>
              let row := mkExpense exp_id (now w) (now w) schema_version data in
              let status := get payload "status" in
              (Ok (mkCreated exp_id
                     (if truthy status then status else VStr "confirmed") true),
               with_expenses s1 (expenses s1 ++ [row]))
          end
      end
  end.

(** [{"id": ..., "created_at": ..., "updated_at": ..., "schema_version": ...,
    **data}] *)
Definition expense_view (r : expense) : dict :=
  update [ ("id", VStr (e_id r));
           ("created_at", VStr (e_created_at r));
           ("updated_at", VStr (e_updated_at r));
           ("schema_version", VStr (e_schema_version r)) ]
         (e_data r).

Definition get_expense (w : env) (x_api_key : option string)
  (expense_id : string) : handler dict := fun s =>
  match require_key w x_api_key with
  | Err e => (Err e, s)
  | Ok _ =>
      match select_expense s expense_id with
      | None => (Err (HTTPException 404 NotFound), s)
      | Some r => (Ok (expense_view r), s)
      end
  end.

Record UpdateExpenseRequest : Type := mkUpdateExpense {
  u_status : option string;
  u_data : option ExpenseInput
}.

(** The document [update_expense] validates and writes: the stored one,
    updated with the non-null entries of the patch, then with the status. *)
Definition merged_data (data : dict) (req : UpdateExpenseRequest) : dict :=
  let data1 :=
    match u_data req with
    | Some patch => update data (drop_none (model_dump patch))
    | None => data
    end in
  match u_status req with
  | Some st => set data1 "status" (VStr st)
  | None => data1
  end.

(** [UPDATE expenses SET updated_at=?, data=? WHERE id=?] *)
Definition write_expense (id updated_at : string) (data : dict) (s : store) : store :=
  with_expenses s
    (map (fun r => if String.eqb (e_id r) id
                   then mkExpense (e_id r) (e_created_at r) updated_at
                                  (e_schema_version r) data
                   else r)
         (expenses s)).

Definition update_expense (w : env) (x_api_key : option string)
  (expense_id : string) (req : UpdateExpenseRequest) : handler dict := fun s =>
  match require_key w x_api_key with
  | Err e => (Err e, s)
  | Ok _ =>
      match select_expense s expense_id with
      | None => (Err (HTTPException 404 NotFound), s)
      | Some r =>
          let data := merged_data (e_data r) req in
          match validate_against_schema s data with
          | Err e => (Err e, s)
          | Ok _ =>
              match dumps_for_store data with
              | Err e => (Err e, s)
              | Ok stored =>
                  get_expense w x_api_key expense_id
                    (write_expense expense_id (now w) stored s)
              end
          end
      end
  end.

Record list_query : Type := mkQuery {
  q_from : option date;
  q_to : option date;
  q_vendor : option string;
  q_client : option string;
  q_category : option string;
  q_status : option string;
  q_q : option string;
  q_cursor : option string;
  q_limit : Z
}.

(** [min(max(limit,1),200)] *)
Definition page_size (limit : Z) : Z := Z.min (Z.max limit 1) 200.

(** [(v or "").lower()] *)
Definition lower_or_empty (w : env) (v : pyval) : result string :=
  if truthy v then
    match v with
    | VStr s => Ok (str_lower w s)
    | _ => Err AttributeError
    end
  else Ok EmptyString.

(** [date.fromisoformat(data["date"])] *)
Definition row_date (w : env) (data : dict) : result date :=
  match lookup data "date" with
  | None => Err (KeyError "date")
  | Some (VStr s) =>
      match date_fromisoformat w s with
      | Some d => Ok d
      | None => Err ValueError
      end
  | Some _ => Err TypeError
  end.

(** [if wanted and (data.get(key) or "").lower() != wanted.lower(): continue];
    [true] when the row goes on to the next test. *)
Definition same_text (w : env) (wanted : option string) (data : dict) (key : string)
  : result bool :=
  match wanted with
  | None => Ok true
  | Some EmptyString => Ok true
  | Some v =>
      do have <- lower_or_empty w (get data key);
      Ok (String.eqb have (str_lower w v))
  end.

(** [if q: blob = json.dumps(data, ensure_ascii=False).lower(); if
    q.lower() not in blob: continue] *)
Definition text_matches (w : env) (q : option string) (data : dict) : result bool :=
  match q with
  | None => Ok true
  | Some EmptyString => Ok true
  | Some q =>
      match json_dumps (VDict data) with
      | Some blob => Ok (contains (str_lower w blob) (str_lower w q))
      | None => Err TypeError
      end
  end.

(** The filters of [list_expenses] on one row, in the order of the loop
    body: [Ok false] is [continue]. *)
Definition keep_row (w : env) (qy : list_query) (data : dict) : result bool :=
  do d <- row_date w data;
  if match q_from qy with Some f => date_ltb d f | None => false end then Ok false
  else if match q_to qy with Some t => date_ltb t d | None => false end then Ok false
  else
    do v <- same_text w (q_vendor qy) data "vendor";
    if negb v then Ok false else
    do c <- same_text w (q_client qy) data "client";
    if negb c then Ok false else
    do g <- same_text w (q_category qy) data "category";
    if negb g then Ok false else
    do st <- same_text w (q_status qy) data "status";
    if negb st then Ok false else
    text_matches w (q_q qy) data.

Fixpoint collect_items (w : env) (qy : list_query) (rows : list expense)
  : result (list dict) :=
  match rows with
  | [] => Ok []
  | r :: rest =>
      do keep <- keep_row w qy (e_data r);
      do items <- collect_items w qy rest;
      Ok (if keep then expense_view r :: items else items)
  end.

Record page : Type := mkPage {
  items : list dict;
  next_cursor : option string
}.

(** [SELECT * FROM expenses ORDER BY created_at DESC LIMIT ?] *)
Definition select_page (s : store) (limit : Z) : list expense :=
  firstn (Z.to_nat (page_size limit)) (order_by_created_desc (expenses s)).

Definition list_expenses (w : env) (x_api_key : option string) (qy : list_query)
  : handler page := fun s =>
  match require_key w x_api_key with
  | Err e => (Err e, s)
  | Ok _ =>
      match collect_items w qy (select_page s (q_limit qy)) with
      | Err e => (Err e, s)
      | Ok l => (Ok (mkPage l None), s)
      end
  end.

End Api.

(** ** Vocabulary of the specification *)

Module Spec.
Import Text Dates Py Db Api.

(** A version string [<ISO-date>.<counter>]. *)
Definition version_of (d : date) (n : Z) : string :=
  (isoformat d ++ "." ++ py_str n)%string.

Definition date_eqb (a b : date) : bool :=
  ((year a =? year b) && (month a =? month b) && (day a =? day b))%Z.

(** The bump rule in the words of the specification, for a stored version
    made of the date [fst stored] and the counter [snd stored]: the counter
    goes up when the stored date is [day], and restarts at 1 otherwise. *)
Definition bump_rule (day : date) (stored : date * Z) : string :=
  if date_eqb (fst stored) day then version_of day (snd stored + 1)
  else version_of day 1.

(** Today's date on the UTC clock. *)
Definition utc_today (w : env) : date := dt_date (utcnow w).

(** [currentVersion()] *)
Definition current_version (w : env) (s : store) : string :=
  fst (get_schema_version w s).

(** The schema mutations. *)
Inductive mutation : Type :=
| CreateField (req : CreateFieldRequest)
| UpdateField (key : string) (req : UpdateFieldRequest)
| DisableField (key : string)
| HardDeleteField (key : string).

Definition run_mutation (w : env) (x_api_key : option string) (m : mutation)
  : handler schema_view :=
  match m with
  | CreateField req => create_field w x_api_key req
  | UpdateField key req => update_field w x_api_key key req
  | DisableField key => delete_field w x_api_key key false
  | HardDeleteField key => delete_field w x_api_key key true
  end.

(** An update that names no attribute. *)
Definition no_op (m : mutation) : bool :=
  match m with
  | UpdateField _ req => no_updates req
  | _ => false
  end.

(** [v] is one of the strings of [allowed], letter for letter. *)
Definition member (v : pyval) (allowed : list string) : Prop :=
  exists t, v = VStr t /\ In t allowed.

(** [k] is the key of an enabled field of type enum whose list of values,
    [allowed], is not empty. *)
Definition constrained (fields : list field) (k : string) (allowed : list string)
  : Prop :=
  exists f, enabled_field fields k = Some f /\ f_type f = TEnum
            /\ enum_options f = allowed /\ allowed <> [].

(** The schema without the rows keyed [k]. *)
Definition without_field (k : string) (s : store) : store :=
  with_fields s (filter (fun f => negb (has_key k f)) (schema_fields s)).

(** A text filter counts as provided when it is a non-empty string. *)
Definition provided (x : option string) : option string :=
  match x with
  | Some (String c r) => Some (String c r)
  | _ => None
  end.

(** The text a document holds under [key], empty when it holds none. *)
Definition text_of (data : dict) (key : string) : string :=
  match get data key with
  | VStr t => t
  | _ => EmptyString
  end.

(** Two texts are the same up to case when [str.lower] makes them equal. *)
Definition same_ignoring_case (w : env) (a b : string) : bool :=
  String.eqb (str_lower w a) (str_lower w b).

(** [b] up to case occurs in [a] up to case. *)
Definition found_ignoring_case (w : env) (a b : string) : bool :=
  contains (str_lower w a) (str_lower w b).

(** The calendar date a document holds under date. *)
Definition date_of (w : env) (data : dict) : option date :=
  match lookup data "date" with
  | Some (VStr t) => date_fromisoformat w t
  | _ => None
  end.

(** [a <= b] on dates *)
Definition date_leb (a b : date) : bool := date_ltb a b || date_eqb a b.

Definition text_filter (w : env) (wanted : option string) (data : dict)
  (key : string) : bool :=
  match provided wanted with
  | Some v => same_ignoring_case w (text_of data key) v
  | None => true
  end.

(** The filters of the specification, all of them at once: the date within
    the inclusive range, the four texts equal up to case, [q] found in the
    JSON form of the document up to case. *)
Definition matches (w : env) (qy : list_query) (data : dict) : bool :=
  match date_of w data with
  | Some d =>
      match q_from qy with Some f => date_leb f d | None => true end
      && match q_to qy with Some t => date_leb d t | None => true end
  | None => false
  end
  && text_filter w (q_vendor qy) data "vendor"
  && text_filter w (q_client qy) data "client"
  && text_filter w (q_category qy) data "category"
  && text_filter w (q_status qy) data "status"
  && match provided (q_q qy) with
     | Some q =>
         match json_dumps (VDict data) with
         | Some blob => found_ignoring_case w blob q
         | None => false
         end
     | None => true
     end.

Definition text_or_none (v : pyval) : Prop :=
  v = VNone \/ exists t, v = VStr t.

(** A stored document the filters can read: an ISO date under date, a text
    or nothing under the four filtered keys, and a JSON form. *)
Definition readable (w : env) (data : dict) : Prop :=
  date_of w data <> None
  /\ text_or_none (get data "vendor") /\ text_or_none (get data "client")
  /\ text_or_none (get data "category") /\ text_or_none (get data "status")
  /\ json_dumps (VDict data) <> None.

(** Rows in reverse chronological order: no row is earlier than one that
    follows it. *)
Definition later_first (a b : expense) : Prop :=
  String.leb (e_created_at b) (e_created_at a) = true.

(** The listing as the specification words it: the stored expenses that
    pass the filters, latest first, cut at the page size. *)
Definition list_all_matching (w : env) (qy : list_query) (s : store)
  : list expense :=
  firstn (Z.to_nat (page_size (q_limit qy)))
         (filter (fun r => matches w qy (e_data r))
                 (order_by_created_desc (expenses s))).

End Spec.

(** ** Sample data *)

Module Sample.
Import Text Dates Py Db Api Spec.

Definition jan1 : date := mkDate 2024 1 1.
Definition jan2 : date := mkDate 2024 1 2.

Definition hex : string := "0123456789abcdef0123456789abcdef".

(** [str.lower] on a text whose characters are ASCII or letters of the
    Latin-1 supplement.  In UTF-8 the capitals U+00C0 to U+00DE (U+00D7, the
    multiplication sign, is not one) are the byte 0xC3 followed by a byte
    from 0x80 to 0x9E, and the small letter is 0x20 further; [lead] tells
    that the byte before was 0xC3. *)
Fixpoint latin1_lower_from (lead : bool) (s : string) : string :=
  match s with
  | EmptyString => EmptyString
  | String c r =>
      let n := nat_of_ascii c in
      if lead && (128 <=? n)%nat && (n <=? 158)%nat && negb (n =? 151)%nat
      then String (ascii_of_nat (n + 32)) (latin1_lower_from false r)
      else String (lower_char c) (latin1_lower_from (n =? 195)%nat r)
  end.

Definition latin1_lower (s : string) : string := latin1_lower_from false s.

(** A server whose texts stay within ASCII and Latin-1 letters, where
    [int()] is given no digit outside ASCII and dates come as YYYY-MM-DD. *)
Definition server (api_key : string) (local : date) (utc : datetime) : env :=
  mkEnv api_key local utc hex latin1_lower (fun _ => None) (fun _ => None).

(** Noon UTC on January 1st, on a server whose local date agrees. *)
Definition noon : env := server "dev-key" jan1 (mkDatetime jan1 "12:00:00").

(** Half past eleven in the evening UTC on January 1st, on a server whose
    local time is one hour ahead: there it is already January 2nd. *)
Definition late_evening : env :=
  server "dev-key" jan2 (mkDatetime jan1 "23:30:00").

Definition key : option string := Some "dev-key".

(** The seeded schema after three bumps on January 1st, no expenses. *)
Definition seeded : store :=
  mkStore (Some (mkMeta "2024-01-01.3" "2024-01-01T10:00:00")) seed_fields [].

(** The same with a damaged counter. *)
Definition damaged : store :=
  mkStore (Some (mkMeta "2024-01-01.x" "2024-01-01T10:00:00")) seed_fields [].


(** A stored document without a currency. *)
Definition no_currency : dict :=
  [ ("date", VStr "2024-01-01"); ("amount", VFloat "10.0");
    ("vendor", VStr "Acme"); ("status", VStr "confirmed") ].

(** January 2nd, local and UTC alike. *)
Definition next_day : env := server "dev-key" jan2 (mkDatetime jan2 "08:00:00").

(** A stored document, as [json.loads] returns it. *)
Definition lunch_doc : dict :=
  [ ("date", VStr "2024-01-01"); ("amount", VFloat "10.0");
    ("currency", VStr "ARS"); ("vendor", VStr "Acme"); ("client", VNone);
    ("status", VStr "pending_confirmation");
    ("extra", VDict [("foo", VStr "bar")]) ].

Definition lunch : expense :=
  mkExpense "exp_0123456789abcdef" "2024-01-01T09:00:00" "2024-01-01T09:00:00"
            "2024-01-01.1" lunch_doc.

(** One expense written under version 2024-01-01.1; the schema has since
    moved on to 2024-01-02.1. *)
Definition moved_on : store :=
  mkStore (Some (mkMeta "2024-01-02.1" "2024-01-02T07:00:00")) seed_fields [lunch].

Definition confirm : UpdateExpenseRequest := mkUpdateExpense (Some "confirmed") None.

(** A status the seeded schema does not list. *)
Definition archive : UpdateExpenseRequest := mkUpdateExpense (Some "archived") None.

Definition dinner_doc : dict :=
  [ ("date", VStr "2024-01-01"); ("amount", VFloat "25.5");
    ("currency", VStr "USD"); ("vendor", VStr "Beta"); ("client", VNone);
    ("status", VStr "confirmed") ].

Definition dinner : expense :=
  mkExpense "exp_fedcba9876543210" "2024-01-01T21:00:00" "2024-01-01T21:00:00"
            "2024-01-01.1" dinner_doc.

Definition two_expenses : store :=
  mkStore (Some (mkMeta "2024-01-01.1" "2024-01-01T08:00:00")) seed_fields
          [lunch; dinner].

(** An expense of January 2nd at a vendor written with an accent. *)
Definition coffee_doc : dict :=
  [ ("date", VStr "2024-01-02"); ("amount", VFloat "3.0");
    ("currency", VStr "ARS"); ("vendor", VStr "café"); ("client", VNone);
    ("status", VStr "confirmed") ].

Definition coffee : expense :=
  mkExpense "exp_00000000000000c0" "2024-01-02T09:00:00" "2024-01-02T09:00:00"
            "2024-01-01.1" coffee_doc.

Definition three_expenses : store :=
  mkStore (Some (mkMeta "2024-01-01.1" "2024-01-01T08:00:00")) seed_fields
          [lunch; dinner; coffee].

(** [GET /expenses?vendor=CAFÉ] *)
Definition from_cafe : list_query :=
  mkQuery None None (Some "CAFÉ") None None None None None 50.

(** [GET /expenses?vendor=ACME&limit=1] *)
Definition one_from_acme : list_query :=
  mkQuery None None (Some "ACME") None None None None None 1.

(** [GET /expenses?vendor=acme&q=BAR&limit=500] *)
Definition acme_bar : list_query :=
  mkQuery (Some jan1) (Some jan2) (Some "acme") None None None (Some "BAR") None 500.

(** A body every field of the seeded schema accepts, with an attribute the
    schema does not model. *)
Definition taxi : ExpenseInput :=
  mkExpenseInput jan1 "12.5" "ARS" (Some "Acme") None None None None None None
                 None None None None None None (Some "confirmed")
                 (Some [("foo", VStr "bar")]).

(** [POST /schema/expense/fields] for a new text field. *)
Definition project_field : CreateFieldRequest :=
  mkCreateField "project" "Proyecto" TString (Some false) (Some true) None None.

(** [PATCH /expenses/{id}] with a body that changes the vendor. *)
Definition new_vendor : UpdateExpenseRequest :=
  mkUpdateExpense None
    (Some (mkExpenseInput jan1 "10.0" "ARS" (Some "Beta") None None None None
             None None None None None None None None (Some "confirmed") None)).

End Sample.

(** ** Start-up *)

Module Startup.
Import Text Dates Py Db Api.

(** [init_db]: the four [CREATE TABLE IF NOT EXISTS] leave existing tables
    as they are, then [seed_schema_if_empty] is called. *)
Definition init_db (w : env) : handler unit := seed_schema_if_empty w.

(** [bump_schema_version()] called [n] times in a row, at one reading of
    the clock. *)
Fixpoint bump_times (n : nat) (w : env) (s : store) : store :=
  match n with
  | O => s
  | S k => snd (bump_schema_version w (bump_times k w s))
  end.

(** The row [create_field] inserts for a request. *)
Definition new_row (req : CreateFieldRequest) : field :=
  mkField (cf_key req) (cf_label req) (cf_type req)
          (bool_of (cf_required req)) (bool_of (cf_enabled req))
          (cf_description req)
          (match cf_enum_values req with
           | Some (x :: l) => Some (x :: l)
           | _ => None
           end).

(** The rows a mutation leaves: the old ones, the old ones and a row with a
    new key, the old ones rewritten without a change of key, or some of the
    old ones. *)
Inductive rows_step (old : list field) : list field -> Prop :=
| rows_same : rows_step old old
| rows_added row :
    ~ In (f_key row) (map f_key old) -> rows_step old (old ++ [row])
| rows_rewritten g :
    (forall f, f_key (g f) = f_key f) -> rows_step old (map g old)
| rows_removed p : rows_step old (filter p old).

(** The keys of the schema rows, in row order. *)
Definition field_keys (s : store) : list string := map f_key (schema_fields s).

End Startup.

(** ** Aliases *)

Module Aliases.
Import Text Dates Py Db Api.

(** [AliasKind] *)
Inductive AliasKind : Type :=
| KVendor | KClient | KCategory | KSubcategory
| KPaymentMethod | KConcept | KProject | KCostCenter.

(** The string a kind is in the request and in the table. *)
Definition kind_name (k : AliasKind) : string :=
  match k with
  | KVendor => "vendor"
  | KClient => "client"
  | KCategory => "category"
  | KSubcategory => "subcategory"
  | KPaymentMethod => "payment_method"
  | KConcept => "concept"
  | KProject => "project"
  | KCostCenter => "cost_center"
  end.

(** A row of [aliases]; every column is TEXT NOT NULL. *)
Record alias : Type := mkAlias {
  a_id : string;
  a_kind : string;
  a_alias : string;
  a_value : string;
  a_created_at : string
}.

(** The table [aliases], in row order. *)
Definition table : Type := list alias.

(** What an alias handler answers: a value, or an [HTTPException] with its
    status code and detail. *)
Inductive outcome (A : Type) : Type :=
| Done (a : A)
| Raised (status_code : nat) (detail : string).

Arguments Done {A} a.
Arguments Raised {A} status_code detail.

Definition alias_handler (A : Type) : Type := table -> outcome A * table.

(** [require_key] passed. *)
Definition key_accepted (w : env) (x_api_key : option string) : bool :=
  match require_key w x_api_key with
  | Ok _ => true
  | Err _ => false
  end.

Record CreateAliasRequest : Type := mkCreateAlias {
  ca_kind : AliasKind;
  ca_alias : string;
  ca_value : string
}.

(** [SELECT id FROM aliases WHERE kind=? AND alias=?] then [fetchone()] *)
Definition select_alias (t : table) (kind alias_text : string) : option alias :=
  find (fun r => String.eqb (a_kind r) kind && String.eqb (a_alias r) alias_text) t.

Definition create_alias (w : env) (x_api_key : option string)
  (req : CreateAliasRequest) : alias_handler alias := fun t =>
  if key_accepted w x_api_key then
    match select_alias t (kind_name (ca_kind req)) (str_lower w (ca_alias req)) with
    | Some _ => (Raised 409 "Alias already exists", t)
    | None =>
        let al_id := ("al_" ++ substring 0 16 (uuid4_hex w))%string in
        let row := mkAlias al_id (kind_name (ca_kind req))
                           (str_lower w (ca_alias req)) (ca_value req) (now w) in
        (Done row, t ++ [row])
    end
  else (Raised 401 "Unauthorized", t).

Record alias_query : Type := mkAliasQuery {
  aq_kind : option string;
  aq_alias : option string;
  aq_value : option string;
  aq_cursor : option string;
  aq_limit : Z
}.

(** Insertion into a list sorted by [created_at], latest first; as for
    expenses, the earlier of two rows with one stamp stays in front. *)
Fixpoint insert_alias_desc (a : alias) (l : list alias) : list alias :=
  match l with
  | [] => [a]
  | x :: r =>
      if String.ltb (a_created_at a) (a_created_at x) then x :: insert_alias_desc a r
      else a :: l
  end.

(** [SELECT * FROM aliases ORDER BY created_at DESC LIMIT ?] *)
Definition select_alias_page (t : table) (limit : Z) : list alias :=
  firstn (Z.to_nat (page_size limit)) (fold_right insert_alias_desc [] t).

(** [if x and ...]: the test is made for a non-empty string only. *)
Definition when_given (x : option string) (test : string -> bool) : bool :=
  match x with
  | Some (String c r) => test (String c r)
  | _ => true
  end.

(** The three tests of the loop body of [list_aliases]; [false] is
    [continue]. *)
Definition keep_alias (w : env) (q : alias_query) (r : alias) : bool :=
  when_given (aq_kind q) (fun kind => String.eqb (a_kind r) kind)
  && when_given (aq_alias q) (fun a => contains (a_alias r) (str_lower w a))
  && when_given (aq_value q)
       (fun v => contains (str_lower w (a_value r)) (str_lower w v)).

Record alias_page : Type := mkAliasPage {
  alias_items : list alias;
  alias_next_cursor : option string
}.

Definition list_aliases (w : env) (x_api_key : option string) (q : alias_query)
  : alias_handler alias_page := fun t =>
  if key_accepted w x_api_key then
    (Done (mkAliasPage (filter (keep_alias w q) (select_alias_page t (aq_limit q)))
                       None), t)
  else (Raised 401 "Unauthorized", t).

(** [cur.rowcount] after [DELETE FROM aliases WHERE id=?] *)
Definition rowcount (t : table) (alias_id : string) : nat :=
  length (filter (fun r => String.eqb (a_id r) alias_id) t).

Definition delete_alias (w : env) (x_api_key : option string) (alias_id : string)
  : alias_handler (bool * string) := fun t =>
  if key_accepted w x_api_key then
    if (rowcount t alias_id =? 0)%nat then (Raised 404 "Not found", t)
    else (Done (true, alias_id),
          filter (fun r => negb (String.eqb (a_id r) alias_id)) t)
  else (Raised 401 "Unauthorized", t).

(** No two rows of the table have the same kind and alias. *)
Definition pairs_unique (t : table) : Prop :=
  NoDup (map (fun r => (a_kind r, a_alias r)) t).

End Aliases.

Module AliasSample.
Import Aliases.

Definition acme_client : alias :=
  mkAlias "al_aaaaaaaaaaaaaaaa" "client" "acme" "Acme SRL" "2024-01-01T09:00:00".

(** [POST /aliases] with the body of the specification's scenario. *)
Definition cafe_request : CreateAliasRequest :=
  mkCreateAlias KVendor "Café Martinez" "Cafe Martinez SA".

(** The row that request leaves at noon on January 1st. *)
Definition cafe : alias :=
  mkAlias "al_0123456789abcdef" "vendor" "café martinez" "Cafe Martinez SA"
          "2024-01-01T12:00:00".

Definition two_aliases : table := [acme_client; cafe].

End AliasSample.

(** * Properties *)

Import Text Dates Py Db Api Spec Startup.

(** ** Text *)

Section TextFacts.

Example lower_folds_ascii : ascii_lower "Cafe MARTINEZ sa" = "cafe martinez sa".
Proof. reflexivity. Qed.

Example str_lower_sample :
  str_lower Sample.noon "CAFÉ Martinez" = "café martinez"
  /\ str_lower Sample.noon "ÀÞ×ß" = "àþ×ß".
Proof. split; reflexivity. Qed.

Example split_dot_trailing : split_dot "a.b." = ["a"; "b"; EmptyString].
Proof. reflexivity. Qed.

Example ascii_int_lenient :
  ascii_int " +1_0 " = Some 10%Z /\ ascii_int "1__0" = None
  /\ ascii_int "x" = None /\ ascii_int "-07" = Some (-7)%Z
  /\ ascii_int (String (ascii_of_nat 11) (String "5" (String (ascii_of_nat 12) EmptyString)))
     = Some 5%Z
  /\ ascii_int (String (ascii_of_nat 28) "5") = None.
Proof. repeat split; reflexivity. Qed.

Example py_str_negative : py_str (-120) = "-120" /\ py_str 0 = "0".
Proof. split; reflexivity. Qed.

Example json_dumps_list :
  json_dumps (VList [VInt 1; VNone; VBool true; VFloat "2.5"])
  = Some "[1, null, true, 2.5]"
  /\ json_dumps (VList [VInt 1; VDate (mkDate 2024 1 1)]) = None.
Proof. split; reflexivity. Qed.

Lemma digit_char_ascii (d : Z) :
  (0 <= d < 10)%Z -> is_ascii_char (digit_char d) = true.
Proof.
  intros H.
  assert (d = 0 \/ d = 1 \/ d = 2 \/ d = 3 \/ d = 4 \/ d = 5 \/ d = 6
          \/ d = 7 \/ d = 8 \/ d = 9)%Z as Hd by lia.
  repeat (destruct Hd as [-> | Hd]); try subst d; reflexivity.
Qed.

Lemma all_chars_isascii s : all_chars is_ascii_char s -> isascii s = true.
Proof.
  induction s as [|c r IH]; [reflexivity|].
  intros [Hc Hr]. cbn [isascii]. now rewrite Hc, IH.
Qed.

Lemma digit_char_spec (d : Z) :
  (0 <= d < 10)%Z ->
  is_digit (digit_char d) = true /\ digit_val (digit_char d) = d
  /\ not_space (digit_char d) = true /\ not_dot (digit_char d) = true.
Proof.
  intros H.
  assert (d = 0 \/ d = 1 \/ d = 2 \/ d = 3 \/ d = 4 \/ d = 5 \/ d = 6
          \/ d = 7 \/ d = 8 \/ d = 9)%Z as Hd by lia.
  repeat (destruct Hd as [-> | Hd]); try subst d;
    (repeat split; try reflexivity; discriminate).
Qed.

Lemma int_digits_digit a b c r :
  is_digit c = true ->
  int_digits a b (String c r) = int_digits (10 * a + digit_val c) false r.
Proof. intros H. simpl. now rewrite H. Qed.

Lemma int_digits_digits_of (fuel : nat) :
  forall n rest, (0 <= n)%Z -> (Z.to_nat n <= fuel)%nat ->
  exists m, forall a b,
    int_digits a b (digits_of fuel n rest) = int_digits (a * m + n) false rest.
Proof.
  induction fuel as [|f IH]; intros n rest Hn Hf.
  - assert (n = 0)%Z by lia. subst n. exists 10%Z. intros a b.
    cbn [digits_of]. rewrite int_digits_digit by reflexivity.
    f_equal. change (digit_val (digit_char (0 mod 10))) with 0%Z. lia.
  - cbn [digits_of]. destruct (Z.ltb_spec n 10) as [Hlt | Hge].
    + exists 10%Z. intros a b.
      rewrite Z.mod_small by lia.
      destruct (@digit_char_spec n) as (Hd & Hv & _); [lia|].
      rewrite int_digits_digit by exact Hd. rewrite Hv. f_equal. lia.
    + assert (0 <= n mod 10 < 10)%Z as Hm by (apply Z.mod_pos_bound; lia).
      assert (n = 10 * (n / 10) + n mod 10)%Z as Hdm
          by (apply Z.div_mod; lia).
      destruct (IH (n / 10)%Z (String (digit_char (n mod 10)) rest))
        as [m Hrec]; [lia | lia |].
      exists (10 * m)%Z. intros a b. rewrite Hrec.
      destruct (@digit_char_spec (n mod 10)%Z) as (Hd & Hv & _); [lia|].
      rewrite int_digits_digit by exact Hd. rewrite Hv. f_equal. lia.
Qed.

Lemma digits_of_chars (p : ascii -> bool) (fuel : nat) :
  (forall d, (0 <= d < 10)%Z -> p (digit_char d) = true) ->
  forall n rest, (0 <= n)%Z -> all_chars p rest ->
  all_chars p (digits_of fuel n rest).
Proof.
  intros Hp. induction fuel as [|f IH]; intros n rest Hn Hr.
  - cbn [digits_of]. split; [apply Hp, Z.mod_pos_bound; lia | exact Hr].
  - cbn [digits_of]. destruct (n <? 10)%Z.
    + split; [apply Hp, Z.mod_pos_bound; lia | exact Hr].
    + apply IH; [apply Z.div_pos; lia|].
      split; [apply Hp, Z.mod_pos_bound; lia | exact Hr].
Qed.

Lemma rstrip_id s : all_chars not_space s -> rstrip s = s.
Proof.
  induction s as [|c r IH]; intros H; [reflexivity|].
  destruct H as [Hc Hr]. cbn [rstrip]. rewrite (IH Hr).
  destruct r; [|reflexivity].
  unfold not_space in Hc. apply negb_true_iff in Hc. now rewrite Hc.
Qed.

Lemma strip_id s : all_chars not_space s -> strip s = s.
Proof.
  intros H. unfold strip.
  assert (lstrip s = s) as ->.
  { destruct s as [|c r]; [reflexivity|]. destruct H as [Hc _].
    unfold not_space in Hc. apply negb_true_iff in Hc. cbn. now rewrite Hc. }
  now apply rstrip_id.
Qed.

Lemma digits_of_head fuel :
  forall n rest, (0 <= n)%Z ->
  exists c r, digits_of fuel n rest = String c r /\ is_digit c = true.
Proof.
  induction fuel as [|f IH]; intros n rest Hn.
  - cbn [digits_of]. eexists _, _. split; [reflexivity|].
    apply digit_char_spec, Z.mod_pos_bound; lia.
  - cbn [digits_of]. destruct (n <? 10)%Z.
    + eexists _, _. split; [reflexivity|].
      apply digit_char_spec, Z.mod_pos_bound; lia.
    + apply IH, Z.div_pos; lia.
Qed.

Lemma ascii_int_unsigned c r :
  is_digit c = true -> all_chars not_space (String c r) ->
  ascii_int (String c r) = int_digits 0 true (String c r).
Proof.
  intros Hd Hs. unfold ascii_int. rewrite (strip_id _ Hs).
  destruct c as [[] [] [] [] [] [] [] []]; try discriminate Hd; reflexivity.
Qed.

Lemma ascii_int_digits_of n :
  (0 <= n)%Z ->
  int_digits 0 true (digits_of (Z.to_nat n) n EmptyString) = Some n.
Proof.
  intros Hn.
  destruct (@int_digits_digits_of (Z.to_nat n) n EmptyString Hn (le_n _))
    as [m Hm].
  rewrite Hm. cbn. f_equal; lia.
Qed.

(** [int(str(n)) == n] *)
Lemma ascii_int_py_str n : ascii_int (py_str n) = Some n.
Proof.
  unfold py_str. destruct (Z.ltb_spec n 0) as [Hneg | Hpos].
  - assert (0 <= - n)%Z as Hn by lia.
    unfold ascii_int. rewrite strip_id.
    + rewrite (ascii_int_digits_of Hn). cbn. f_equal. lia.
    + split; [reflexivity|].
      apply digits_of_chars; [intros d Hd; apply digit_char_spec, Hd | lia | exact I].
  - destruct (@digits_of_head (Z.to_nat n) n EmptyString Hpos) as (c & r & E & Hd).
    pose proof (ascii_int_digits_of Hpos) as Hi.
    assert (all_chars not_space (digits_of (Z.to_nat n) n EmptyString)) as Hs
      by (apply digits_of_chars;
          [intros d Hd'; apply digit_char_spec, Hd' | lia | exact I]).
    rewrite E in *. now rewrite ascii_int_unsigned.
Qed.

Lemma py_str_isascii n : isascii (py_str n) = true.
Proof.
  apply all_chars_isascii. unfold py_str. destruct (n <? 0)%Z eqn:E.
  - split; [reflexivity|].
    apply digits_of_chars; [intros d Hd; apply digit_char_ascii, Hd | lia | exact I].
  - apply digits_of_chars;
      [intros d Hd; apply digit_char_ascii, Hd | lia | exact I].
Qed.

(** [int(str(n)) == n], whatever the interpreter does outside ASCII. *)
Lemma int_of_str_py_str (w : env) n : int_of_str w (py_str n) = Some n.
Proof. unfold int_of_str. rewrite py_str_isascii. apply ascii_int_py_str. Qed.

Lemma py_str_no_dot n : all_chars not_dot (py_str n).
Proof.
  unfold py_str. destruct (n <? 0)%Z eqn:E.
  - split; [reflexivity|].
    apply digits_of_chars; [intros d Hd; apply digit_char_spec, Hd | lia | exact I].
  - apply digits_of_chars;
      [intros d Hd; apply digit_char_spec, Hd | lia | exact I].
Qed.

Lemma split_dot_not_nil s : split_dot s <> [].
Proof.
  destruct s as [|c r]; cbn; [discriminate|].
  destruct (Ascii.eqb c dot); [discriminate|].
  destruct (split_dot r); discriminate.
Qed.

Lemma split_dot_no_dot s : all_chars not_dot s -> split_dot s = [s].
Proof.
  induction s as [|c r IH]; intros H; [reflexivity|].
  destruct H as [Hc Hr]. cbn [split_dot].
  unfold not_dot in Hc. apply negb_true_iff in Hc. rewrite Hc.
  now rewrite (IH Hr).
Qed.

Lemma split_dot_app a b :
  exists x l, split_dot (a ++ String dot b) = (x :: l) ++ split_dot b.
Proof.
  induction a as [|c a IH].
  - exists EmptyString, []. reflexivity.
  - destruct IH as (x & l & E). cbn [String.append split_dot]. rewrite E.
    destruct (Ascii.eqb c dot).
    + exists EmptyString, (x :: l). reflexivity.
    + exists (String c x), l. reflexivity.
Qed.

Lemma last_app_not_nil {A : Type} (l l' : list A) d :
  l' <> [] -> last (l ++ l') d = last l' d.
Proof.
  intros H. induction l as [|x l IH]; [reflexivity|].
  cbn [app]. destruct (l ++ l') eqn:E.
  - destruct l; [cbn in E; congruence | discriminate].
  - now rewrite <- IH.
Qed.

(** The text after the last dot is what [split(".")[-1]] returns. *)
Lemma last_segment_app a b :
  all_chars not_dot b -> last_segment (a ++ String dot b) = b.
Proof.
  intros H. unfold last_segment.
  destruct (split_dot_app a b) as (x & l & E). rewrite E.
  rewrite last_app_not_nil by apply split_dot_not_nil.
  now rewrite (split_dot_no_dot _ H).
Qed.

Lemma startswith_app p r : startswith (p ++ r) p = true.
Proof.
  induction p as [|c p IH]; [reflexivity|].
  cbn. now rewrite Ascii.eqb_refl.
Qed.

Lemma startswith_same_length p :
  forall a r, startswith (a ++ r) p = true ->
  String.length a = String.length p -> a = p.
Proof.
  induction p as [|c p IH]; intros a r H L.
  - destruct a; [reflexivity | discriminate].
  - destruct a as [|c' a]; [discriminate|].
    cbn in H. apply andb_true_iff in H as [Hc Hs].
    apply Ascii.eqb_eq in Hc. subst c'. f_equal.
    apply (IH a r Hs). now inversion L.
Qed.

End TextFacts.

(** ** Dates *)

Section DateFacts.

Lemma digit_char_inj a b :
  (0 <= a < 10)%Z -> (0 <= b < 10)%Z -> digit_char a = digit_char b -> a = b.
Proof.
  intros Ha Hb E.
  destruct (digit_char_spec Ha) as (_ & Va & _).
  destruct (digit_char_spec Hb) as (_ & Vb & _).
  congruence.
Qed.

Example isoformat_pads : isoformat (mkDate 987 3 9) = "0987-03-09".
Proof. reflexivity. Qed.

Example fromisoformat_ymd_checks_calendar :
  fromisoformat_ymd "2024-02-29" = Some (mkDate 2024 2 29)
  /\ fromisoformat_ymd "2023-02-29" = None /\ fromisoformat_ymd "2024-2-29" = None.
Proof. repeat split; reflexivity. Qed.

Lemma isoformat_length d : String.length (isoformat d) = 10.
Proof. reflexivity. Qed.

Lemma days_in_month_le y m : (days_in_month y m <= 31)%Z.
Proof.
  unfold days_in_month.
  destruct m as [|p|p]; try lia.
  destruct (is_leap y);
    do 4 (destruct p as [p|p|]; try lia).
Qed.

Lemma valid_date_bounds d :
  valid_date d = true ->
  (1 <= year d <= 9999 /\ 1 <= month d <= 12 /\ 1 <= day d <= 31)%Z.
Proof.
  unfold valid_date. intros H.
  pose proof (days_in_month_le (year d) (month d)). lia.
Qed.

(** Two dates print alike only when they are the same date. *)
Lemma isoformat_inj d d' :
  valid_date d = true -> valid_date d' = true ->
  isoformat d = isoformat d' -> d = d'.
Proof.
  intros V V' E.
  apply valid_date_bounds in V, V'.
  destruct d as [y m dd], d' as [y' m' dd']. cbn in V, V'.
  unfold isoformat, pad4, pad2 in E. cbn [year month day] in E.
  injection E as E1 E2 E3 E4 E5 E6 E7 E8.
  apply digit_char_inj in E1, E2, E3, E4, E5, E6, E7, E8;
    try (apply Z.mod_pos_bound; lia).
  assert (y = y') by (clear - V V' E1 E2 E3 E4; Z.to_euclidean_division_equations; lia).
  assert (m = m') by (clear - V V' E5 E6; Z.to_euclidean_division_equations; lia).
  assert (dd = dd') by (clear - V V' E7 E8; Z.to_euclidean_division_equations; lia).
  congruence.
Qed.

(** What [isoformat] writes, [fromisoformat] reads back. *)
Lemma fromisoformat_ymd_isoformat d :
  valid_date d = true -> fromisoformat_ymd (isoformat d) = Some d.
Proof.
  intros V. pose proof (@valid_date_bounds d V) as B.
  destruct d as [y m dd]. cbn [year month day] in B.
  cbv beta iota delta [isoformat pad4 pad2 fromisoformat_ymd year month day forallb].
  assert (forall x, is_digit (digit_char (x mod 10)) = true) as Hd
    by (intros x; apply digit_char_spec, Z.mod_pos_bound; lia).
  assert (forall x, digit_val (digit_char (x mod 10)) = (x mod 10)%Z) as Hv
    by (intros x; apply digit_char_spec, Z.mod_pos_bound; lia).
  rewrite !Hd, !Hv. cbn [andb].
  replace (1000 * (y / 1000 mod 10) + 100 * (y / 100 mod 10)
           + 10 * (y / 10 mod 10) + y mod 10)%Z with y
    by (Z.to_euclidean_division_equations; lia).
  replace (10 * (m / 10 mod 10) + m mod 10)%Z with m
    by (Z.to_euclidean_division_equations; lia).
  replace (10 * (dd / 10 mod 10) + dd mod 10)%Z with dd
    by (Z.to_euclidean_division_equations; lia).
  now rewrite V.
Qed.

(** Every version of [date.fromisoformat] reads back what [isoformat]
    writes. *)
Lemma date_fromisoformat_isoformat (w : env) d :
  valid_date d = true -> date_fromisoformat w (isoformat d) = Some d.
Proof.
  intros V. unfold date_fromisoformat. now rewrite fromisoformat_ymd_isoformat.
Qed.

Lemma valid_date_neq d d' :
  valid_date d = true -> valid_date d' = true -> d <> d' ->
  forall rest, startswith (isoformat d ++ rest) (isoformat d') = false.
Proof.
  intros V V' N rest.
  destruct (startswith (isoformat d ++ rest) (isoformat d')) eqn:E; [|reflexivity].
  apply startswith_same_length in E; [|reflexivity].
  now apply isoformat_inj in E.
Qed.

End DateFacts.

(** ** Schema versioning *)

Section Versioning.

Variable w : env.

Lemma last_segment_dot a b :
  all_chars not_dot b -> last_segment (a ++ "." ++ b)%string = b.
Proof. apply last_segment_app. Qed.

Lemma version_of_last_segment d n : last_segment (version_of d n) = py_str n.
Proof. apply last_segment_dot, py_str_no_dot. Qed.

Lemma version_of_counter d n :
  int_of_str w (last_segment (version_of d n)) = Some n.
Proof. rewrite version_of_last_segment. apply int_of_str_py_str. Qed.

Lemma next_version_same_day d n :
  next_version w (isoformat d) (Some (version_of d n)) = version_of d (n + 1).
Proof.
  unfold next_version. unfold version_of at 1. rewrite startswith_app.
  now rewrite version_of_counter.
Qed.

Lemma next_version_other_day d d' n :
  valid_date d = true -> valid_date d' = true -> d <> d' ->
  next_version w (isoformat d') (Some (version_of d n)) = version_of d' 1.
Proof.
  intros V V' N. unfold next_version. unfold version_of at 1.
  now rewrite (valid_date_neq V V' N).
Qed.

(** Whatever is stored, the version a bump issues is today's date and a
    counter. *)
Lemma next_version_shape (d : date) prev :
  exists c, next_version w (isoformat d) prev = version_of d c.
Proof.
  unfold next_version. destruct prev as [prev|]; [|now exists 1%Z].
  destruct (startswith prev (isoformat d)); [|now exists 1%Z].
  destruct (int_of_str w (last_segment prev)) as [n|]; [|now exists 1%Z].
  now exists (n + 1)%Z.
Qed.

(** A bump never issues the version it found. *)
Lemma next_version_fresh dayz prev : next_version w dayz (Some prev) <> prev.
Proof.
  unfold next_version. intros E.
  destruct (startswith prev dayz) eqn:S.
  - destruct (int_of_str w (last_segment prev)) as [n|] eqn:P.
    + rewrite <- E in P.
      rewrite last_segment_dot in P by apply py_str_no_dot.
      rewrite int_of_str_py_str in P. injection P as P. lia.
    + rewrite <- E in P.
      change (dayz ++ ".1")%string with (dayz ++ "." ++ "1")%string in P.
      rewrite last_segment_dot in P by (cbn; auto). discriminate P.
  - rewrite <- E in S. now rewrite startswith_app in S.
Qed.

Lemma bump_schema_version_meta s :
  schema_meta (snd (bump_schema_version w s))
  = Some (mkMeta (fst (bump_schema_version w s)) (now w)).
Proof. reflexivity. Qed.

Lemma date_eqb_eq a b : date_eqb a b = true <-> a = b.
Proof.
  unfold date_eqb. destruct a, b. cbn. split.
  - intros H. f_equal; lia.
  - intros H. injection H as -> -> ->. rewrite !Z.eqb_refl. reflexivity.
Qed.

End Versioning.

(** C3, as stated, fails: [bump_schema_version] takes the day from
    [date.today()], the local calendar date, not from the UTC clock.  At
    23:30 UTC on January 1st, on a server one hour ahead of UTC, the stored
    version 2024-01-01.3 carries today's UTC date, so the claim asks for
    2024-01-01.4; the code issues 2024-01-02.1. *)
Lemma bump_not_on_utc_date :
  schema_meta Sample.seeded
    = Some (mkMeta (version_of Sample.jan1 3) "2024-01-01T10:00:00")
  /\ utc_today Sample.late_evening = Sample.jan1
  /\ bump_rule (utc_today Sample.late_evening) (Sample.jan1, 3%Z) = "2024-01-01.4"
  /\ fst (bump_schema_version Sample.late_evening Sample.seeded) = "2024-01-02.1"
  /\ fst (bump_schema_version Sample.late_evening Sample.seeded)
     <> bump_rule (utc_today Sample.late_evening) (Sample.jan1, 3%Z).
Proof. repeat split; try reflexivity. discriminate. Qed.

(** C3, amended: [bump_schema_version] computes the next version from the
    server's local date.  For a stored version [<date>.<counter>] the
    counter goes up by one when the stored date is today and the version
    restarts at [<today>.1] otherwise, and the new version is persisted with
    the time of the bump.  Hence, whatever was stored before the first of
    two consecutive bumps: on the same day the second counter is the first
    plus one, and on different days the date prefixes differ and the counter
    is back at 1. *)
Theorem bump_follows_local_date (w : env) (s : store) (d : date) (n : Z) (u : string) :
  valid_date d = true ->
  valid_date (today w) = true ->
  schema_meta s = Some (mkMeta (version_of d n) u) ->
  fst (bump_schema_version w s) = bump_rule (today w) (d, n)
  /\ schema_meta (snd (bump_schema_version w s))
     = Some (mkMeta (bump_rule (today w) (d, n)) (now w))
  /\ (forall (s0 : store) (w' : env),
        today w' = today w ->
        exists c : Z,
          fst (bump_schema_version w s0) = version_of (today w) c
          /\ fst (bump_schema_version w' (snd (bump_schema_version w s0)))
             = version_of (today w) (c + 1)
          /\ (c < c + 1)%Z)
  /\ (forall (s0 : store) (w' : env),
        valid_date (today w') = true ->
        today w' <> today w ->
        fst (bump_schema_version w' (snd (bump_schema_version w s0)))
          = version_of (today w') 1
        /\ isoformat (today w') <> isoformat (today w)).
Proof.
  intros Vd Vt Hs.
  assert (fst (bump_schema_version w s) = bump_rule (today w) (d, n)) as Hfst.
  { unfold bump_schema_version, bump_rule. cbn [fst snd]. rewrite Hs. cbn [option_map m_version].
    destruct (date_eqb d (today w)) eqn:E.
    - apply date_eqb_eq in E. subst d. apply next_version_same_day.
    - apply next_version_other_day; auto.
      intros ->. rewrite (proj2 (date_eqb_eq _ _) eq_refl) in E. discriminate. }
  split; [exact Hfst|]. split.
  { rewrite bump_schema_version_meta. now rewrite Hfst. }
  split.
  - intros s0 w' Hw'.
    destruct (next_version_shape w (today w) (option_map m_version (schema_meta s0)))
      as [c Hc].
    exists c. split; [exact Hc|]. split; [|lia].
    unfold bump_schema_version at 1. cbn [fst].
    rewrite bump_schema_version_meta. cbn [option_map m_version].
    unfold bump_schema_version. cbn [fst]. rewrite Hc, Hw'.
    apply next_version_same_day.
  - intros s0 w' Vw' N.
    destruct (next_version_shape w (today w) (option_map m_version (schema_meta s0)))
      as [c Hc].
    split.
    + unfold bump_schema_version at 1. cbn [fst].
      rewrite bump_schema_version_meta. cbn [option_map m_version].
      unfold bump_schema_version. cbn [fst]. rewrite Hc.
      apply next_version_other_day; auto.
    + intros E. apply N. now apply isoformat_inj.
Qed.

Lemma bump_follows_local_date_witness :
  fst (bump_schema_version Sample.late_evening Sample.seeded)
  = bump_rule Sample.jan2 (Sample.jan1, 3%Z).
Proof.
  apply (@bump_follows_local_date Sample.late_evening Sample.seeded
           Sample.jan1 3 "2024-01-01T10:00:00"); reflexivity.
Defined.

(** C7: when [int()] does not read the last dot-separated segment of the
    stored version as an integer, [bump_schema_version] raises nothing: it
    issues [<today>.1] and stores it with the time of the bump. *)
Theorem bump_resets_unparsable_suffix (w : env) (s : store) (row : meta) :
  schema_meta s = Some row ->
  int_of_str w (last_segment (m_version row)) = None ->
  bump_schema_version w s
  = (version_of (today w) 1,
     mkStore (Some (mkMeta (version_of (today w) 1) (now w)))
             (schema_fields s) (expenses s)).
Proof.
  intros Hs Hp. unfold bump_schema_version, next_version.
  rewrite Hs. cbn [option_map]. rewrite Hp.
  destruct (startswith (m_version row) (isoformat (today w))); reflexivity.
Qed.

Lemma bump_resets_unparsable_suffix_witness :
  bump_schema_version Sample.noon Sample.damaged
  = ("2024-01-01.1",
     mkStore (Some (mkMeta "2024-01-01.1" "2024-01-01T12:00:00")) seed_fields []).
Proof.
  apply (@bump_resets_unparsable_suffix Sample.noon Sample.damaged
           (mkMeta "2024-01-01.x" "2024-01-01T10:00:00")); reflexivity.
Defined.

(** ** Validation *)

Section Validation.

Variable fields : list field.

Lemma in_strs_member v opts : in_strs v opts = true <-> member v opts.
Proof.
  unfold member. destruct v; cbn; try (split; [discriminate | intros (t & E & _); discriminate]).
  rewrite existsb_exists. split.
  - intros (x & Hin & E). apply String.eqb_eq in E. subst x. eauto.
  - intros (t & E & Hin). injection E as <-. exists s. split; [exact Hin | apply String.eqb_refl].
Qed.

Lemma field_type_eqb_eq a b : field_type_eqb a b = true <-> a = b.
Proof. destruct a, b; cbn; split; congruence. Qed.

Lemma constrained_functional k a a' :
  constrained fields k a -> constrained fields k a' -> a = a'.
Proof.
  intros (f & E & _ & O & _) (f' & E' & _ & O' & _). congruence.
Qed.

(** The enum test on one item: it passes exactly when the key is not
    constrained or the value is a member. *)
Lemma check_enum_ok k v :
  check_enum fields k v = Ok tt <->
  (forall allowed, constrained fields k allowed -> member v allowed).
Proof.
  unfold check_enum. split.
  - intros H allowed (f & E & T & O & N). rewrite E in H.
    rewrite (proj2 (field_type_eqb_eq _ _) T), O in H.
    destruct allowed as [|a l]; [congruence|].
    destruct (in_strs v (a :: l)) eqn:I; [|discriminate].
    now apply in_strs_member.
  - intros H. destruct (enabled_field fields k) as [f|] eqn:E; [|reflexivity].
    destruct (field_type_eqb (f_type f) TEnum) eqn:T; [|reflexivity].
    destruct (enum_options f) as [|a l] eqn:O; [reflexivity|].
    assert (member v (a :: l)) as M.
    { apply H. exists f. apply field_type_eqb_eq in T. repeat split; auto. discriminate. }
    apply in_strs_member in M. now rewrite M.
Qed.

Lemma check_enum_err k v e :
  check_enum fields k v = Err e ->
  exists allowed, constrained fields k allowed /\ ~ member v allowed
                  /\ e = HTTPException 400 (InvalidEnum k v allowed).
Proof.
  unfold check_enum.
  destruct (enabled_field fields k) as [f|] eqn:E; [|discriminate].
  destruct (field_type_eqb (f_type f) TEnum) eqn:T; [|discriminate].
  destruct (enum_options f) as [|a l] eqn:O; [discriminate|].
  destruct (in_strs v (a :: l)) eqn:I; [discriminate|].
  intros H. injection H as <-. exists (a :: l). repeat split.
  - exists f. apply field_type_eqb_eq in T. repeat split; auto. discriminate.
  - intros M. apply in_strs_member in M. congruence.
Qed.

Lemma check_enums_ok items :
  check_enums fields items = Ok tt <->
  (forall k v, In (k, v) items -> check_enum fields k v = Ok tt).
Proof.
  induction items as [|[k v] r IH]; cbn [check_enums].
  - split; [intros _ k v [] | reflexivity].
  - destruct (check_enum fields k v) as [[]|e] eqn:E; cbn [bind].
    + rewrite IH. split.
      * intros H k' v' [H' | H']; [injection H' as <- <-; exact E | now apply H].
      * intros H k' v' H'. apply H. now right.
    + split; [discriminate|]. intros H.
      rewrite (H k v (or_introl eq_refl)) in E. discriminate.
Qed.

Lemma check_enums_err items e :
  check_enums fields items = Err e ->
  exists k v, In (k, v) items /\ check_enum fields k v = Err e.
Proof.
  induction items as [|[k v] r IH]; cbn [check_enums]; [discriminate|].
  destruct (check_enum fields k v) as [[]|e'] eqn:E; cbn [bind].
  - intros H. destruct (IH H) as (k' & v' & Hin & He).
    exists k', v'. split; [now right | exact He].
  - intros H. injection H as <-. exists k, v. split; [now left | exact E].
Qed.

End Validation.



(** ** What the schema handlers leave in place *)

Section Frames.

Variable w : env.

Lemma bump_schema_version_frame s :
  schema_fields (snd (bump_schema_version w s)) = schema_fields s
  /\ expenses (snd (bump_schema_version w s)) = expenses s.
Proof. split; reflexivity. Qed.

Lemma get_schema_version_frame s :
  schema_fields (snd (get_schema_version w s)) = schema_fields s
  /\ expenses (snd (get_schema_version w s)) = expenses s.
Proof.
  unfold get_schema_version. destruct (schema_meta s); [split; reflexivity|].
  apply bump_schema_version_frame.
Qed.

Lemma get_schema_version_stored s row :
  schema_meta s = Some row -> get_schema_version w s = (m_version row, s).
Proof. intros H. unfold get_schema_version. now rewrite H. Qed.

Lemma get_expense_schema_store x_api_key s view s' :
  get_expense_schema w x_api_key s = (Ok view, s') ->
  schema_fields s' = schema_fields s /\ expenses s' = expenses s.
Proof.
  unfold get_expense_schema.
  destruct (require_key w x_api_key); [|discriminate].
  pose proof (get_schema_version_frame s) as F.
  destruct (get_schema_version w s) as [v s1]. cbn [snd] in F.
  intros H. injection H as _ <-. exact F.
Qed.

End Frames.

(** ** Disabled fields *)

Section Disabling.

Variable k : string.

Let soft (f : field) : field := if has_key k f then disable f else f.
Let other (f : field) : bool := negb (has_key k f).

Lemma soft_cases f :
  (soft f = disable f /\ other f = false) \/ (soft f = f /\ other f = true).
Proof. unfold soft, other. destruct (has_key k f); auto. Qed.

Lemma enabled_after_disable fields :
  filter f_enabled (map soft fields) = filter f_enabled (filter other fields).
Proof.
  induction fields as [|f r IH]; [reflexivity|].
  cbn [map filter]. destruct (soft_cases f) as [(-> & ->) | (-> & ->)].
  - cbn. exact IH.
  - cbn [filter]. destruct (f_enabled f); [f_equal|]; exact IH.
Qed.

Lemma enabled_field_after_disable fields key :
  enabled_field (map soft fields) key = enabled_field (filter other fields) key.
Proof. unfold enabled_field. now rewrite enabled_after_disable. Qed.

Lemma check_required_after_disable fields payload :
  check_required (map soft fields) payload
  = check_required (filter other fields) payload.
Proof.
  induction fields as [|f r IH]; [reflexivity|].
  cbn [map filter]. destruct (soft_cases f) as [(-> & ->) | (-> & ->)].
  - cbn. exact IH.
  - cbn [check_required]. now rewrite IH.
Qed.

Lemma check_enums_after_disable fields items :
  check_enums (map soft fields) items = check_enums (filter other fields) items.
Proof.
  induction items as [|[key v] r IH]; [reflexivity|].
  cbn [check_enums]. unfold check_enum.
  rewrite enabled_field_after_disable. now rewrite IH.
Qed.

Lemma check_required_names fields payload e :
  check_required fields payload = Err e ->
  exists f, In f fields /\ f_enabled f = true /\ f_required f = true
            /\ is_none (get payload (f_key f)) = true
            /\ e = HTTPException 400 (MissingRequiredField (f_key f)).
Proof.
  induction fields as [|f r IH]; cbn [check_required]; [discriminate|].
  destruct (f_enabled f && f_required f && is_none (get payload (f_key f))) eqn:E.
  - intros H. injection H as <-.
    apply andb_true_iff in E as [E E3]. apply andb_true_iff in E as [E1 E2].
    exists f. cbn. auto.
  - intros H. destruct (IH H) as (f' & Hin & Hrest). exists f'. cbn. auto.
Qed.

Lemma soft_disabled fields f :
  In f (map soft fields) -> f_enabled f = true -> f_key f <> k.
Proof.
  intros Hin En. apply in_map_iff in Hin as (g & <- & _).
  unfold soft in *. destruct (has_key k g) eqn:H.
  - cbn in En. discriminate.
  - unfold has_key in H. now apply String.eqb_neq in H.
Qed.

End Disabling.

(** C5: once [delete_field] has disabled the field [k], the field no longer
    takes part in validation: no document is rejected for missing [k], and
    every document is judged as it would be under the schema without [k].
    So a document with no value for [k] that the other fields accept
    validates. *)
Theorem disabled_field_not_required
  (w : env) (x_api_key : option string) (k : string)
  (s s' : store) (view : schema_view) :
  delete_field w x_api_key k false s = (Ok view, s') ->
  forall payload : dict,
    validate_against_schema s' payload
      <> Err (HTTPException 400 (MissingRequiredField k))
    /\ validate_against_schema s' payload
       = validate_against_schema (without_field k s) payload
    /\ (is_none (get payload k) = true ->
        validate_against_schema (without_field k s) payload = Ok tt ->
        validate_against_schema s' payload = Ok tt).
Proof.
  intros H payload.
  assert (schema_fields s'
          = map (fun f => if has_key k f then disable f else f) (schema_fields s))
    as Hf.
  { unfold delete_field in H.
    destruct (require_key w x_api_key); [|discriminate].
    destruct (select_field s k); [|discriminate].
    destruct (bump_schema_version w _) as [v s2] eqn:B.
    apply get_expense_schema_store in H as [-> _].
    apply (f_equal snd) in B. cbn [snd] in B. subst s2. reflexivity. }
  assert (validate_against_schema s' payload
          = validate_against_schema (without_field k s) payload) as Heq.
  { unfold validate_against_schema, load_fields, without_field, with_fields.
    cbn [schema_fields]. rewrite Hf.
    rewrite check_required_after_disable.
    destruct (check_required _ payload) as [[]|e]; cbn [bind]; [|reflexivity].
    apply check_enums_after_disable. }
  split; [|split].
  - unfold validate_against_schema, load_fields. rewrite Hf.
    destruct (check_required _ payload) as [[]|e] eqn:R; cbn [bind].
    + intros E. apply check_enums_err in E as (k' & v & _ & E).
      apply check_enum_err in E as (allowed & _ & _ & E). discriminate.
    + intros E. injection E as ->.
      apply check_required_names in R as (f & Hin & En & _ & _ & E).
      injection E as E. symmetry in E. revert E.
      now apply (@soft_disabled k (schema_fields s)).
  - exact Heq.
  - intros _ Hok. now rewrite Heq.
Qed.

(** Disabling the required field currency of the seeded schema: a document
    without a currency now validates. *)
Lemma disabled_field_not_required_witness :
  validate_against_schema Sample.seeded Sample.no_currency
    = Err (HTTPException 400 (MissingRequiredField "currency"))
  /\ validate_against_schema
       (snd (delete_field Sample.noon Sample.key "currency" false Sample.seeded))
       Sample.no_currency
     = Ok tt.
Proof.
  split; [reflexivity|].
  apply (proj2 (proj2 (@disabled_field_not_required
            Sample.noon Sample.key "currency" Sample.seeded
            (snd (delete_field Sample.noon Sample.key "currency" false Sample.seeded))
            (mkSchemaView "expense" "2024-01-01.4" "2024-01-01T12:00:00"
               (map (fun f => if has_key "currency" f then disable f else f)
                    seed_fields))
            eq_refl Sample.no_currency)));
    reflexivity.
Defined.

(** ** Dictionaries *)

Section DictFacts.

Lemma lookup_set d k v k' :
  lookup (set d k v) k' = if String.eqb k k' then Some v else lookup d k'.
Proof.
  induction d as [|[k0 v0] r IH]; cbn [set lookup].
  - reflexivity.
  - destruct (String.eqb_spec k0 k) as [-> | N]; cbn [lookup].
    + destruct (String.eqb k k'); reflexivity.
    + rewrite IH. destruct (String.eqb_spec k0 k') as [-> | N'].
      * destruct (String.eqb_spec k k'); [congruence | reflexivity].
      * reflexivity.
Qed.

Lemma lookup_not_in d k : ~ In k (map fst d) -> lookup d k = None.
Proof.
  induction d as [|[k0 v0] r IH]; cbn; [reflexivity|]. intros H.
  destruct (String.eqb_spec k0 k); [tauto | apply IH; tauto].
Qed.

Lemma lookup_update d other k :
  NoDup (map fst other) ->
  lookup (update d other) k
  = match lookup other k with Some v => Some v | None => lookup d k end.
Proof.
  unfold update. revert d.
  induction other as [|[k0 v0] r IH]; intros d N; [reflexivity|].
  cbn [fold_left fst snd map] in *. inversion N as [|? ? Hn Hr]; subst.
  rewrite (IH _ Hr). cbn [lookup]. rewrite lookup_set.
  destruct (String.eqb_spec k0 k) as [-> | Hk].
  - now rewrite (lookup_not_in _ _ Hn).
  - reflexivity.
Qed.

Lemma drop_none_keys d : NoDup (map fst d) -> NoDup (map fst (drop_none d)).
Proof.
  unfold drop_none. induction d as [|[k0 v0] r IH]; cbn; [auto|].
  intros N. inversion N as [|? ? Hn Hr]; subst.
  destruct (is_none v0); cbn; [auto|]. constructor; [|auto].
  intros H. apply Hn. apply in_map_iff in H as (x & E & Hx).
  apply filter_In in Hx as [Hx _]. apply in_map_iff. eauto.
Qed.

Lemma lookup_drop_none d k :
  NoDup (map fst d) ->
  lookup (drop_none d) k
  = match lookup d k with
    | Some v => if is_none v then None else Some v
    | None => None
    end.
Proof.
  unfold drop_none. induction d as [|[k0 v0] r IH]; cbn [filter lookup map fst snd];
    [reflexivity|].
  intros N. inversion N as [|? ? Hn Hr]; subst.
  destruct (String.eqb_spec k0 k) as [-> | Hk].
  - destruct (is_none v0) eqn:E; cbn [negb lookup].
    + apply lookup_not_in. intros H. apply Hn.
      apply in_map_iff in H as (x & Ex & Hx).
      apply filter_In in Hx as [Hx _]. apply in_map_iff. eauto.
    + now rewrite String.eqb_refl.
  - destruct (is_none v0); cbn [negb lookup]; [now apply IH|].
    destruct (String.eqb_spec k0 k); [congruence | now apply IH].
Qed.

Lemma model_dump_keys e : NoDup (map fst (model_dump e)).
Proof.
  cbn [model_dump map fst].
  repeat (constructor;
          [intros H; cbn [In] in H;
           repeat (destruct H as [H | H]; [discriminate H|]); exact H|]).
  constructor.
Qed.

End DictFacts.

(** ** Updating an expense *)

(** The merged document, key by key: the status override if the key is
    status and an override was sent; otherwise the value of the patch if the
    patch has a non-null value there; otherwise what was stored. *)
Lemma lookup_merged_data (data : dict) (req : UpdateExpenseRequest) (k : string) :
  lookup (merged_data data req) k
  = let patched :=
      match u_data req with
      | Some patch =>
          match lookup (model_dump patch) k with
          | Some v => if is_none v then lookup data k else Some v
          | None => lookup data k
          end
      | None => lookup data k
      end in
    match u_status req with
    | Some st => if String.eqb "status" k then Some (VStr st) else patched
    | None => patched
    end.
Proof.
  cbv zeta. unfold merged_data.
  assert (lookup match u_data req with
                 | Some patch => update data (drop_none (model_dump patch))
                 | None => data
                 end k
          = match u_data req with
            | Some patch =>
                match lookup (model_dump patch) k with
                | Some v => if is_none v then lookup data k else Some v
                | None => lookup data k
                end
            | None => lookup data k
            end) as Hp.
  { destruct (u_data req) as [patch|]; [|reflexivity].
    rewrite lookup_update by apply drop_none_keys, model_dump_keys.
    rewrite lookup_drop_none by apply model_dump_keys.
    destruct (lookup (model_dump patch) k) as [v|]; [|reflexivity].
    destruct (is_none v); reflexivity. }
  destruct (u_status req) as [st|]; [|exact Hp].
  rewrite lookup_set. now rewrite Hp.
Qed.

Section UpdateExpense.

Variable w : env.
Variable x_api_key : option string.

Lemma select_after_write s id r t d :
  select_expense s id = Some r ->
  select_expense (write_expense id t d s) id
  = Some (mkExpense (e_id r) (e_created_at r) t (e_schema_version r) d).
Proof.
  unfold select_expense, write_expense, with_expenses. cbn [expenses].
  induction (expenses s) as [|x l IH]; cbn [find map]; [discriminate|].
  destruct (String.eqb (e_id x) id) eqn:E.
  - intros H. injection H as <-. cbn [e_id]. now rewrite E.
  - rewrite E. exact IH.
Qed.

Lemma require_key_unit r : require_key w x_api_key = Ok r -> r = tt.
Proof. now destruct r. Qed.

(** What a completed [update_expense] has done. *)
Lemma update_expense_ok id req s view s' :
  update_expense w x_api_key id req s = (Ok view, s') ->
  exists r,
    select_expense s id = Some r
    /\ validate_against_schema s (merged_data (e_data r) req) = Ok tt
    /\ s' = write_expense id (now w) (merged_data (e_data r) req) s.
Proof.
  unfold update_expense.
  destruct (require_key w x_api_key) as [[]|] eqn:K; [|discriminate].
  destruct (select_expense s id) as [r|] eqn:S; [|discriminate].
  destruct (validate_against_schema s (merged_data (e_data r) req)) as [[]|] eqn:V;
    [|discriminate].
  unfold dumps_for_store.
  destruct (json_dumps (VDict (merged_data (e_data r) req))); [|discriminate].
  unfold get_expense. rewrite K.
  rewrite (@select_after_write _ _ _ _ _ S).
  intros H. injection H as _ <-. exists r. auto.
Qed.

(** A failed [update_expense] has written nothing. *)
Lemma update_expense_err id req s e s' :
  update_expense w x_api_key id req s = (Err e, s') -> s' = s.
Proof.
  unfold update_expense.
  destruct (require_key w x_api_key) as [[]|] eqn:K; [|now intros [= _ <-]].
  destruct (select_expense s id) as [r|] eqn:S; [|now intros [= _ <-]].
  destruct (validate_against_schema s (merged_data (e_data r) req)) as [[]|];
    [|now intros [= _ <-]].
  unfold dumps_for_store.
  destruct (json_dumps (VDict (merged_data (e_data r) req))); [|now intros [= _ <-]].
  unfold get_expense. rewrite K.
  rewrite (@select_after_write _ _ _ _ _ S). discriminate.
Qed.

End UpdateExpense.

(** C10: when the merged document fails validation, [update_expense]
    raises that validation error and the database is what it was before
    the call; the same holds for whatever else makes the call fail. *)
Theorem update_rejected_writes_nothing
  (w : env) (x_api_key : option string) (id : string)
  (req : UpdateExpenseRequest) (s : store) (r : expense) (e : exn) :
  require_key w x_api_key = Ok tt ->
  select_expense s id = Some r ->
  validate_against_schema s (merged_data (e_data r) req) = Err e ->
  update_expense w x_api_key id req s = (Err e, s)
  /\ forall e' s', update_expense w x_api_key id req s = (Err e', s') -> s' = s.
Proof.
  intros K S V. split.
  - unfold update_expense. now rewrite K, S, V.
  - intros e' s'. apply update_expense_err.
Qed.

Lemma update_rejected_writes_nothing_witness :
  update_expense Sample.noon Sample.key "exp_0123456789abcdef"
                 Sample.archive Sample.moved_on
  = (Err (HTTPException 400
            (InvalidEnum "status" (VStr "archived")
               ["pending_confirmation"; "confirmed"; "rejected"])),
     Sample.moved_on).
Proof.
  apply (@update_rejected_writes_nothing Sample.noon Sample.key
           "exp_0123456789abcdef" Sample.archive Sample.moved_on Sample.lunch);
    reflexivity.
Defined.

(** C1, as stated, fails: [update_expense] writes [updated_at] and [data]
    and leaves [schema_version] alone.  The expense below was written under
    2024-01-01.1; the update succeeds while the schema is at 2024-01-02.1,
    and the stored row still says 2024-01-01.1. *)
Lemma update_keeps_schema_version :
  let out := update_expense Sample.next_day Sample.key "exp_0123456789abcdef"
                            Sample.confirm Sample.moved_on in
  validate_against_schema Sample.moved_on
    (merged_data Sample.lunch_doc Sample.confirm) = Ok tt
  /\ (exists view, fst out = Ok view)
  /\ option_map e_updated_at (select_expense (snd out) "exp_0123456789abcdef")
     = Some "2024-01-02T08:00:00"
  /\ option_map e_schema_version (select_expense (snd out) "exp_0123456789abcdef")
     = Some "2024-01-01.1"
  /\ current_version Sample.next_day (snd out) = "2024-01-02.1"
  /\ option_map e_schema_version (select_expense (snd out) "exp_0123456789abcdef")
     <> Some (current_version Sample.next_day (snd out)).
Proof.
  cbv zeta. repeat split; try reflexivity.
  - eexists. reflexivity.
  - discriminate.
Qed.

(** C1, amended: an [update_expense] that completes has replaced the stored
    document by the merged one and set [updated_at] to the time of the
    update; [schema_version] is what it was before the update, as are [id]
    and [created_at], and the schema tables are untouched. *)
Theorem update_refreshes_updated_at
  (w : env) (x_api_key : option string) (id : string)
  (req : UpdateExpenseRequest) (s s' : store) (view : dict) :
  update_expense w x_api_key id req s = (Ok view, s') ->
  exists r,
    select_expense s id = Some r
    /\ validate_against_schema s (merged_data (e_data r) req) = Ok tt
    /\ select_expense s' id
       = Some (mkExpense (e_id r) (e_created_at r) (now w)
                         (e_schema_version r) (merged_data (e_data r) req))
    /\ schema_meta s' = schema_meta s
    /\ schema_fields s' = schema_fields s.
Proof.
  intros H. apply update_expense_ok in H as (r & S & V & ->).
  exists r. repeat split; auto. now apply (@select_after_write).
Qed.

Lemma update_refreshes_updated_at_witness :
  exists r,
    select_expense Sample.moved_on "exp_0123456789abcdef" = Some r
    /\ validate_against_schema Sample.moved_on
         (merged_data (e_data r) Sample.confirm) = Ok tt
    /\ select_expense
         (snd (update_expense Sample.next_day Sample.key "exp_0123456789abcdef"
                              Sample.confirm Sample.moved_on))
         "exp_0123456789abcdef"
       = Some (mkExpense (e_id r) (e_created_at r) (now Sample.next_day)
                         (e_schema_version r)
                         (merged_data (e_data r) Sample.confirm))
    /\ schema_meta
         (snd (update_expense Sample.next_day Sample.key "exp_0123456789abcdef"
                              Sample.confirm Sample.moved_on))
       = schema_meta Sample.moved_on
    /\ schema_fields
         (snd (update_expense Sample.next_day Sample.key "exp_0123456789abcdef"
                              Sample.confirm Sample.moved_on))
       = schema_fields Sample.moved_on.
Proof.
  apply (@update_refreshes_updated_at Sample.next_day Sample.key
           "exp_0123456789abcdef" Sample.confirm Sample.moved_on _
           (value_or [] (fst (update_expense Sample.next_day Sample.key
                        "exp_0123456789abcdef" Sample.confirm Sample.moved_on)))).
  reflexivity.
Defined.

(** ** Listing expenses *)

Section Ordering.

Lemma string_leb_trans a :
  forall b c, String.leb a b = true -> String.leb b c = true ->
              String.leb a c = true.
Proof.
  unfold String.leb.
  induction a as [|x a IH]; intros [|y b] [|z c]; cbn; try congruence.
  unfold Ascii.compare.
  destruct (N.compare_spec (N_of_ascii x) (N_of_ascii y)) as [Exy | Lxy | Gxy];
    destruct (N.compare_spec (N_of_ascii y) (N_of_ascii z)) as [Eyz | Lyz | Gyz];
    destruct (N.compare_spec (N_of_ascii x) (N_of_ascii z)) as [Exz | Lxz | Gxz];
    try congruence; try lia.
  apply IH.
Qed.

Lemma not_ltb_leb a b : String.ltb a b = false -> String.leb b a = true.
Proof.
  unfold String.ltb, String.leb. rewrite (String.compare_antisym b a).
  destruct (String.compare a b); cbn; congruence.
Qed.

Lemma ltb_leb a b : String.ltb a b = true -> String.leb a b = true.
Proof.
  unfold String.ltb, String.leb. destruct (String.compare a b); congruence.
Qed.

Lemma later_first_trans a b c :
  later_first a b -> later_first b c -> later_first a c.
Proof. unfold later_first. intros H1 H2. eapply string_leb_trans; eauto. Qed.

Lemma insert_desc_perm e l : Permutation (insert_desc e l) (e :: l).
Proof.
  induction l as [|x r IH]; cbn [insert_desc]; [reflexivity|].
  destruct (String.ltb (e_created_at e) (e_created_at x)); [|reflexivity].
  rewrite IH. apply perm_swap.
Qed.

Lemma order_by_created_desc_perm l : Permutation (order_by_created_desc l) l.
Proof.
  unfold order_by_created_desc.
  induction l as [|x r IH]; cbn [fold_right]; [reflexivity|].
  rewrite insert_desc_perm. now constructor.
Qed.

Lemma insert_desc_sorted e l :
  StronglySorted later_first l -> StronglySorted later_first (insert_desc e l).
Proof.
  induction 1 as [|x r Hs IH Hx]; cbn [insert_desc].
  - repeat constructor.
  - destruct (String.ltb (e_created_at e) (e_created_at x)) eqn:E.
    + constructor; [exact IH|].
      apply (Permutation_Forall (Permutation_sym (insert_desc_perm e r))).
      constructor; [now apply ltb_leb | exact Hx].
    + apply not_ltb_leb in E.
      constructor; [now constructor|].
      constructor; [exact E|].
      eapply Forall_impl; [|exact Hx].
      intros y Hy. eapply later_first_trans; eauto.
Qed.

Lemma order_by_created_desc_sorted l :
  StronglySorted later_first (order_by_created_desc l).
Proof.
  unfold order_by_created_desc.
  induction l as [|x r IH]; cbn [fold_right]; [constructor|].
  now apply insert_desc_sorted.
Qed.

Lemma firstn_Forall {A : Type} (P : A -> Prop) n :
  forall l, Forall P l -> Forall P (firstn n l).
Proof.
  induction n as [|n IH]; intros l H; [constructor|].
  destruct H; cbn [firstn]; constructor; auto.
Qed.

Lemma firstn_sorted {A : Type} (R : A -> A -> Prop) n :
  forall l, StronglySorted R l -> StronglySorted R (firstn n l).
Proof.
  induction n as [|n IH]; intros l H; [constructor|].
  destruct H; cbn [firstn]; constructor; auto.
  now apply firstn_Forall.
Qed.

Lemma filter_Forall {A : Type} (P : A -> Prop) f (l : list A) :
  Forall P l -> Forall P (filter f l).
Proof.
  induction 1; cbn [filter]; [constructor|].
  destruct (f x); auto.
Qed.

Lemma filter_sorted {A : Type} (R : A -> A -> Prop) f (l : list A) :
  StronglySorted R l -> StronglySorted R (filter f l).
Proof.
  induction 1 as [|x r Hs IH Hx]; cbn [filter]; [constructor|].
  destruct (f x); [|exact IH].
  constructor; [exact IH | now apply filter_Forall].
Qed.

Lemma filter_length_le {A : Type} f (l : list A) :
  (length (filter f l) <= length l)%nat.
Proof.
  induction l as [|x r IH]; cbn [filter]; [auto|].
  destruct (f x); cbn [length]; lia.
Qed.

End Ordering.

Section Filters.

Variable w : env.
Variable qy : list_query.

Lemma date_not_ltb a b : negb (date_ltb a b) = date_leb b a.
Proof.
  unfold date_leb, date_ltb, date_eqb. destruct a as [y m d], b as [y' m' d'].
  cbn [year month day].
  repeat match goal with
         | |- context [Z.ltb ?x ?z] => destruct (Z.ltb_spec x z)
         | |- context [Z.eqb ?x ?z] => destruct (Z.eqb_spec x z)
         end; cbn; try reflexivity; lia.
Qed.

Lemma row_date_of data d : date_of w data = Some d -> row_date w data = Ok d.
Proof.
  unfold date_of, row_date.
  destruct (lookup data "date") as [[]|]; try discriminate.
  destruct (date_fromisoformat w s); [|discriminate]. now intros [= ->].
Qed.

Lemma lower_or_empty_text v :
  text_or_none v ->
  lower_or_empty w v
  = Ok (str_lower w match v with VStr t => t | _ => EmptyString end).
Proof.
  intros [-> | (t & ->)]; [reflexivity|].
  unfold lower_or_empty. cbn [truthy].
  destruct (String.eqb_spec t EmptyString) as [-> | N]; reflexivity.
Qed.

Lemma same_text_filter wanted data key :
  text_or_none (get data key) ->
  same_text w wanted data key = Ok (text_filter w wanted data key).
Proof.
  intros T. unfold same_text, text_filter, provided, same_ignoring_case, text_of.
  destruct wanted as [[|c r]|]; try reflexivity.
  now rewrite (lower_or_empty_text T).
Qed.

Lemma keep_row_matches data :
  readable w data -> keep_row w qy data = Ok (matches w qy data).
Proof.
  intros (D & Tv & Tc & Tg & Ts & J).
  unfold keep_row, matches.
  destruct (date_of w data) as [d|] eqn:Ed; [|congruence].
  rewrite (row_date_of _ Ed). cbn [bind].
  rewrite (same_text_filter (q_vendor qy) _ _ Tv),
          (same_text_filter (q_client qy) _ _ Tc),
          (same_text_filter (q_category qy) _ _ Tg),
          (same_text_filter (q_status qy) _ _ Ts).
  cbn [bind].
  assert (text_matches w (q_q qy) data
          = Ok match provided (q_q qy) with
               | Some q =>
                   match json_dumps (VDict data) with
                   | Some blob => found_ignoring_case w blob q
                   | None => false
                   end
               | None => true
               end) as ->.
  { unfold text_matches, provided, found_ignoring_case.
    destruct (q_q qy) as [[|c r]|]; try reflexivity.
    destruct (json_dumps (VDict data)); [reflexivity | congruence]. }
  destruct (q_from qy) as [f|], (q_to qy) as [t|];
    rewrite <- ?date_not_ltb;
    repeat match goal with
           | |- context [date_ltb ?a ?b] => destruct (date_ltb a b)
           end; cbn [negb andb];
    destruct (text_filter w (q_vendor qy) data "vendor"); cbn [negb andb];
      try reflexivity;
    destruct (text_filter w (q_client qy) data "client"); cbn [negb andb];
      try reflexivity;
    destruct (text_filter w (q_category qy) data "category"); cbn [negb andb];
      try reflexivity;
    destruct (text_filter w (q_status qy) data "status"); cbn [negb andb];
      reflexivity.
Qed.

Lemma collect_items_filter rows :
  Forall (fun r => readable w (e_data r)) rows ->
  collect_items w qy rows
  = Ok (map expense_view (filter (fun r => matches w qy (e_data r)) rows)).
Proof.
  induction 1 as [|r rest Hr _ IH]; [reflexivity|].
  cbn [collect_items filter]. rewrite (keep_row_matches Hr). cbn [bind].
  rewrite IH. cbn [bind]. destruct (matches w qy (e_data r)); reflexivity.
Qed.

End Filters.

Lemma page_size_bounds limit : (1 <= page_size limit <= 200)%Z.
Proof. unfold page_size. lia. Qed.

(** C8, as stated, fails: the page is cut before the filters run.  With two
    expenses stored, the later one from Beta and the earlier one from Acme,
    a listing for vendor ACME with limit 1 returns nothing, though the
    earlier expense is stored, passes every filter, and fits the limit. *)
Lemma list_cuts_before_filtering :
  fst (list_expenses Sample.noon Sample.key Sample.one_from_acme Sample.two_expenses)
  = Ok (mkPage [] None)
  /\ In Sample.lunch (expenses Sample.two_expenses)
  /\ matches Sample.noon Sample.one_from_acme (e_data Sample.lunch) = true
  /\ list_all_matching Sample.noon Sample.one_from_acme Sample.two_expenses
     = [Sample.lunch]
  /\ value_or (mkPage [] None)
       (fst (list_expenses Sample.noon Sample.key Sample.one_from_acme
               Sample.two_expenses))
     <> mkPage (map expense_view
                    (list_all_matching Sample.noon Sample.one_from_acme
                       Sample.two_expenses))
               None.
Proof.
  repeat split; try reflexivity.
  - left. reflexivity.
  - discriminate.
Qed.

(** C8, amended: [list_expenses] first takes the page, the stored expenses
    latest first by [created_at] cut at the limit clamped to 1..200, and
    then returns exactly the rows of that page that pass all the filters
    provided, still latest first; so the result has at most that many rows.
    Two texts match up to case when [str.lower] makes them equal, on the
    interpreter that serves the request.  (A text filter sent as the empty
    string is not applied.) *)
Theorem list_filters_the_latest_page
  (w : env) (x_api_key : option string) (qy : list_query) (s : store) :
  require_key w x_api_key = Ok tt ->
  Forall (fun r => readable w (e_data r)) (select_page s (q_limit qy)) ->
  let kept :=
    filter (fun r => matches w qy (e_data r)) (select_page s (q_limit qy)) in
  list_expenses w x_api_key qy s = (Ok (mkPage (map expense_view kept) None), s)
  /\ select_page s (q_limit qy)
     = firstn (Z.to_nat (page_size (q_limit qy))) (order_by_created_desc (expenses s))
  /\ Permutation (order_by_created_desc (expenses s)) (expenses s)
  /\ StronglySorted later_first (order_by_created_desc (expenses s))
  /\ StronglySorted later_first kept
  /\ (forall r, In r kept <->
                In r (select_page s (q_limit qy)) /\ matches w qy (e_data r) = true)
  /\ (1 <= page_size (q_limit qy) <= 200)%Z
  /\ (Z.of_nat (length kept) <= page_size (q_limit qy))%Z.
Proof.
  intros K R kept.
  split; [|split; [|split; [|split; [|split; [|split; [|split]]]]]].
  - unfold list_expenses. rewrite K. now rewrite (@collect_items_filter w qy _ R).
  - reflexivity.
  - apply order_by_created_desc_perm.
  - apply order_by_created_desc_sorted.
  - apply filter_sorted, firstn_sorted, order_by_created_desc_sorted.
  - intros r. apply filter_In.
  - apply page_size_bounds.
  - pose proof (page_size_bounds (q_limit qy)).
    pose proof (filter_length_le (fun r => matches w qy (e_data r))
                  (select_page s (q_limit qy))) as L1.
    pose proof (firstn_le_length (Z.to_nat (page_size (q_limit qy)))
                  (order_by_created_desc (expenses s))) as L2.
    unfold kept. unfold select_page in *. lia.
Qed.

Ltac readable_rows :=
  repeat (constructor;
          [unfold readable; repeat split;
           try (vm_compute; discriminate);
           vm_compute; ((left; reflexivity) || (right; eexists; reflexivity))|]);
  constructor.

Lemma sample_page_readable :
  Forall (fun r => readable Sample.noon (e_data r))
         (select_page Sample.two_expenses (q_limit Sample.acme_bar)).
Proof. vm_compute select_page. readable_rows. Qed.

Lemma sample_cafe_page_readable :
  Forall (fun r => readable Sample.noon (e_data r))
         (select_page Sample.three_expenses (q_limit Sample.from_cafe)).
Proof. vm_compute select_page. readable_rows. Qed.

(** The row stored as café is the one a listing for vendor CAFÉ returns. *)
Lemma list_filters_the_latest_page_witness :
  (list_expenses Sample.noon Sample.key Sample.from_cafe Sample.three_expenses
   = (Ok (mkPage
            (map expense_view
               (filter (fun r => matches Sample.noon Sample.from_cafe (e_data r))
                  (select_page Sample.three_expenses (q_limit Sample.from_cafe))))
            None),
      Sample.three_expenses)
   /\ filter (fun r => matches Sample.noon Sample.from_cafe (e_data r))
         (select_page Sample.three_expenses (q_limit Sample.from_cafe))
      = [Sample.coffee])
  /\ list_expenses Sample.noon Sample.key Sample.acme_bar Sample.two_expenses
     = (Ok (mkPage
              (map expense_view
                 (filter (fun r => matches Sample.noon Sample.acme_bar (e_data r))
                    (select_page Sample.two_expenses (q_limit Sample.acme_bar))))
              None),
        Sample.two_expenses)
  /\ filter (fun r => matches Sample.noon Sample.acme_bar (e_data r))
        (select_page Sample.two_expenses (q_limit Sample.acme_bar))
     = [Sample.lunch].
Proof.
  split; [split|split].
  - exact (proj1 (@list_filters_the_latest_page Sample.noon Sample.key
                    Sample.from_cafe Sample.three_expenses eq_refl
                    sample_cafe_page_readable)).
  - vm_compute. reflexivity.
  - exact (proj1 (@list_filters_the_latest_page Sample.noon Sample.key
                    Sample.acme_bar Sample.two_expenses eq_refl
                    sample_page_readable)).
  - vm_compute. reflexivity.
Defined.

(** ** Writing a document that holds a [date] object *)

Section Serialisation.

(** [json.dumps] has no form for a [date]: a dict with one among its values
    is refused. *)
Lemma json_dumps_date_item (d : dict) k x :
  In (k, VDate x) d -> json_dumps (VDict d) = None.
Proof.
  intros H. cbn [json_dumps].
  match goal with
  | |- option_map _ (?items d) = None =>
      assert (items d = None) as ->; [|reflexivity]
  end.
  induction d as [|[k0 v0] r IH]; [contradiction|].
  destruct H as [H | H].
  - injection H as -> ->. reflexivity.
  - specialize (IH H). cbn. cbn in IH. rewrite IH.
    destruct (json_dumps v0); reflexivity.
Qed.

Lemma lookup_In d k v : lookup d k = Some v -> In (k, v) d.
Proof.
  induction d as [|[k0 v0] r IH]; cbn; [discriminate|].
  destruct (String.eqb_spec k0 k) as [-> | N].
  - intros [= ->]. now left.
  - intros H. right. now apply IH.
Qed.

(** The payload of [create_expense] always holds the [date] object of the
    request. *)
Lemma dumps_model_dump e : dumps_for_store (model_dump e) = Err TypeError.
Proof. reflexivity. Qed.

(** So does the merged document of [update_expense] when the request has a
    [data] part. *)
Lemma dumps_merged_patch data req patch :
  u_data req = Some patch ->
  dumps_for_store (merged_data data req) = Err TypeError.
Proof.
  intros Hp. unfold dumps_for_store.
  rewrite (@json_dumps_date_item _ "date" (i_date patch)); [reflexivity|].
  apply lookup_In.
  rewrite lookup_merged_data, Hp. cbv zeta.
  destruct (u_status req); reflexivity.
Qed.

End Serialisation.

(** ** Schema mutations and the version *)

Section Mutations.

Variable w : env.
Variable x_api_key : option string.

Lemma get_schema_version_meta (w' : env) s :
  exists u, schema_meta (snd (get_schema_version w' s))
            = Some (mkMeta (current_version w' s) u).
Proof.
  unfold current_version, get_schema_version.
  destruct (schema_meta s) as [[v u]|] eqn:E.
  - exists u. exact E.
  - exists (now w'). reflexivity.
Qed.

Lemma get_expense_schema_ok s row :
  require_key w x_api_key = Ok tt ->
  schema_meta s = Some row ->
  get_expense_schema w x_api_key s
  = (Ok (mkSchemaView "expense" (m_version row) (now w) (schema_fields s)), s).
Proof.
  intros K M. unfold get_expense_schema. rewrite K.
  now rewrite (@get_schema_version_stored w s _ M).
Qed.

Lemma bump_then_schema s view s1 :
  require_key w x_api_key = Ok tt ->
  get_expense_schema w x_api_key (snd (bump_schema_version w s)) = (Ok view, s1) ->
  s1 = snd (bump_schema_version w s)
  /\ sv_version view = fst (bump_schema_version w s).
Proof.
  intros K H.
  rewrite (@get_expense_schema_ok _ _ K (bump_schema_version_meta w s)) in H.
  injection H as <- <-. split; reflexivity.
Qed.

(** Every mutation other than an update that names nothing ends with a
    bump, and answers with the version the bump issued. *)
Lemma mutation_bumps m s view s1 :
  no_op m = false ->
  run_mutation w x_api_key m s = (Ok view, s1) ->
  schema_meta s1
  = Some (mkMeta (next_version w (isoformat (today w))
                    (option_map m_version (schema_meta s))) (now w))
  /\ sv_version view
     = next_version w (isoformat (today w)) (option_map m_version (schema_meta s)).
Proof.
  intros N H.
  assert (exists mid, schema_meta mid = schema_meta s
                      /\ s1 = snd (bump_schema_version w mid)
                      /\ sv_version view = fst (bump_schema_version w mid))
    as (mid & Hm & -> & Hv).
  { destruct m as [req | key req | key | key]; cbn [run_mutation no_op] in *.
    - unfold create_field in H.
      destruct (require_key w x_api_key) as [[]|] eqn:K; [|discriminate].
      destruct (select_field s (cf_key req)); [discriminate|].
      match type of H with
      | context [bump_schema_version w ?mid] =>
          exists mid; split; [reflexivity|];
          rewrite (surjective_pairing (bump_schema_version w mid)) in H
      end.
      now apply bump_then_schema.
    - unfold update_field in H. rewrite N in H.
      destruct (require_key w x_api_key) as [[]|] eqn:K; [|discriminate].
      destruct (select_field s key); [|discriminate].
      match type of H with
      | context [bump_schema_version w ?mid] =>
          exists mid; split; [reflexivity|];
          rewrite (surjective_pairing (bump_schema_version w mid)) in H
      end.
      now apply bump_then_schema.
    - unfold delete_field in H.
      destruct (require_key w x_api_key) as [[]|] eqn:K; [|discriminate].
      destruct (select_field s key); [|discriminate].
      match type of H with
      | context [bump_schema_version w ?mid] =>
          exists mid; split; [reflexivity|];
          rewrite (surjective_pairing (bump_schema_version w mid)) in H
      end.
      now apply bump_then_schema.
    - unfold delete_field in H.
      destruct (require_key w x_api_key) as [[]|] eqn:K; [|discriminate].
      destruct (select_field s key); [|discriminate].
      match type of H with
      | context [bump_schema_version w ?mid] =>
          exists mid; split; [reflexivity|];
          rewrite (surjective_pairing (bump_schema_version w mid)) in H
      end.
      now apply bump_then_schema. }
  rewrite bump_schema_version_meta, Hv.
  unfold bump_schema_version. cbn [fst]. now rewrite Hm.
Qed.

(** The part of C4 on the version: [currentVersion()] read before a
    mutation and read after it differ, and the mutation answers with the
    new one. *)
Lemma mutation_changes_version (w0 w1 : env) m s view s1 :
  no_op m = false ->
  run_mutation w x_api_key m (snd (get_schema_version w0 s)) = (Ok view, s1) ->
  current_version w1 s1 <> current_version w0 s
  /\ sv_version view = current_version w1 s1.
Proof.
  intros N H.
  destruct (get_schema_version_meta w0 s) as [u Hu].
  apply (@mutation_bumps _ _ _ _ N) in H as [Hm Hv].
  rewrite Hu in Hm, Hv. cbn [option_map m_version] in Hm, Hv.
  unfold current_version at 1 3.
  rewrite (@get_schema_version_stored w1 s1 _ Hm). cbn [fst m_version].
  split; [apply next_version_fresh | exact Hv].
Qed.

(** The part of C4 on updates that name nothing: the call succeeds,
    answers with the stored version and the fields as they are, and writes
    nothing. *)
Lemma empty_update_is_no_bump key req s row f :
  require_key w x_api_key = Ok tt ->
  select_field s key = Some f ->
  schema_meta s = Some row ->
  no_updates req = true ->
  update_field w x_api_key key req s
  = (Ok (mkSchemaView "expense" (m_version row) (now w) (schema_fields s)), s).
Proof.
  intros K F M N. unfold update_field. rewrite K, F, N.
  now apply get_expense_schema_ok.
Qed.

(** [create_expense] never gets to its INSERT: the payload holds the [date]
    object of the request, which [json.dumps] refuses. *)
Lemma create_expense_never_stores e s :
  exists err s',
    create_expense w x_api_key e s = (Err err, s')
    /\ expenses s' = expenses s.
Proof.
  unfold create_expense.
  destruct (require_key w x_api_key) as [[]|err]; [|now exists err, s].
  destruct (validate_against_schema s (model_dump e)) as [[]|err];
    [|now exists err, s].
  pose proof (get_schema_version_frame w s) as [_ F].
  destruct (get_schema_version w s) as [v s1]. cbn [snd] in F.
  rewrite dumps_model_dump. now exists TypeError, s1.
Qed.

Lemma create_expense_valid_raises e s row :
  require_key w x_api_key = Ok tt ->
  validate_against_schema s (model_dump e) = Ok tt ->
  schema_meta s = Some row ->
  create_expense w x_api_key e s = (Err TypeError, s).
Proof.
  intros K V M. unfold create_expense. rewrite K, V.
  rewrite (@get_schema_version_stored w s _ M). now rewrite dumps_model_dump.
Qed.

(** For the same reason an [update_expense] whose request has a [data]
    part raises once validation has passed. *)
Lemma update_with_patch_raises id req patch s r :
  require_key w x_api_key = Ok tt ->
  select_expense s id = Some r ->
  u_data req = Some patch ->
  validate_against_schema s (merged_data (e_data r) req) = Ok tt ->
  update_expense w x_api_key id req s = (Err TypeError, s).
Proof.
  intros K S P V. unfold update_expense. rewrite K, S, V.
  now rewrite (@dumps_merged_patch _ _ _ P).
Qed.

End Mutations.

(** C2, on the code: an update with a data patch overwrites nothing.  The
    merge is computed as claimed (lemma [lookup_merged_data]), but the
    merged document holds the [date] object of the patch, so once it has
    passed validation [json.dumps] raises [TypeError] before the UPDATE is
    run; whatever else such a call answers is an error too, and the stored
    record is what it was. *)
Theorem update_with_patch_overwrites_nothing
  (w : env) (x_api_key : option string) (id : string)
  (req : UpdateExpenseRequest) (patch : ExpenseInput) (s : store) :
  u_data req = Some patch ->
  (exists e, update_expense w x_api_key id req s = (Err e, s))
  /\ (forall r,
        require_key w x_api_key = Ok tt ->
        select_expense s id = Some r ->
        validate_against_schema s (merged_data (e_data r) req) = Ok tt ->
        update_expense w x_api_key id req s = (Err TypeError, s)
        /\ select_expense (snd (update_expense w x_api_key id req s)) id = Some r).
Proof.
  intros P.
  assert (forall r,
            require_key w x_api_key = Ok tt ->
            select_expense s id = Some r ->
            validate_against_schema s (merged_data (e_data r) req) = Ok tt ->
            update_expense w x_api_key id req s = (Err TypeError, s)) as H.
  { intros r K S V. unfold update_expense. rewrite K, S, V.
    now rewrite (@dumps_merged_patch _ _ _ P). }
  split.
  - unfold update_expense.
    destruct (require_key w x_api_key) as [[]|e] eqn:K; [|eauto].
    destruct (select_expense s id) as [r|] eqn:S; [|eauto].
    destruct (validate_against_schema s (merged_data (e_data r) req)) as [[]|e] eqn:V;
      [|eauto].
    rewrite (@dumps_merged_patch _ _ _ P). eauto.
  - intros r K S V. rewrite (H r K S V). split; [reflexivity | exact S].
Qed.

(** Patching the vendor of the stored lunch from Acme to Beta: the patch
    passes validation, the call raises, and the vendor stored is Acme. *)
Lemma update_with_patch_overwrites_nothing_witness :
  lookup (merged_data Sample.lunch_doc Sample.new_vendor) "vendor"
  = Some (VStr "Beta")
  /\ update_expense Sample.noon Sample.key "exp_0123456789abcdef"
       Sample.new_vendor Sample.moved_on
     = (Err TypeError, Sample.moved_on)
  /\ option_map (fun r => lookup (e_data r) "vendor")
       (select_expense
          (snd (update_expense Sample.noon Sample.key "exp_0123456789abcdef"
                  Sample.new_vendor Sample.moved_on))
          "exp_0123456789abcdef")
     = Some (Some (VStr "Acme")).
Proof.
  split; [reflexivity|].
  destruct (proj2 (@update_with_patch_overwrites_nothing Sample.noon Sample.key
                     "exp_0123456789abcdef" Sample.new_vendor _ Sample.moved_on
                     eq_refl)
                  Sample.lunch eq_refl eq_refl eq_refl) as [H1 H2].
  split; [exact H1|]. now rewrite H2.
Defined.

(** C9, on the code: a body the schema accepts, carrying extra.foo = bar, is
    not stored.  [create_expense] raises [TypeError] at [json.dumps], the
    table of expenses stays empty, and reading the id it would have used
    answers 404 instead of the document. *)
Theorem create_then_read_loses_document :
  validate_against_schema Sample.seeded (model_dump Sample.taxi) = Ok tt
  /\ lookup (model_dump Sample.taxi) "extra" = Some (VDict [("foo", VStr "bar")])
  /\ create_expense Sample.noon Sample.key Sample.taxi Sample.seeded
     = (Err TypeError, Sample.seeded)
  /\ expenses (snd (create_expense Sample.noon Sample.key Sample.taxi Sample.seeded))
     = []
  /\ fst (get_expense Sample.noon Sample.key "exp_0123456789abcdef"
            (snd (create_expense Sample.noon Sample.key Sample.taxi Sample.seeded)))
     = Err (HTTPException 404 NotFound).
Proof. repeat split; reflexivity. Qed.

(** C4, on the code: after a field is created the version has moved from
    2024-01-01.3 to 2024-01-01.4, but the expense created next is not
    stamped with it, because it is not stored at all: [create_expense]
    raises [TypeError] at [json.dumps]. *)
Theorem expense_after_mutation_not_stored :
  let after := snd (run_mutation Sample.noon Sample.key
                      (CreateField Sample.project_field) Sample.seeded) in
  current_version Sample.noon Sample.seeded = "2024-01-01.3"
  /\ current_version Sample.noon after = "2024-01-01.4"
  /\ validate_against_schema after (model_dump Sample.taxi) = Ok tt
  /\ create_expense Sample.noon Sample.key Sample.taxi after = (Err TypeError, after)
  /\ expenses after = [].
Proof. cbv zeta. repeat split; reflexivity. Qed.

(** * Further properties of the handlers *)

(** ** Authentication *)

Section Authentication.

Variable w : env.

Lemma require_key_wrong x_api_key :
  API_KEY w <> EmptyString -> x_api_key <> Some (API_KEY w) ->
  require_key w x_api_key = Err (HTTPException 401 Unauthorized).
Proof.
  intros Hk Hx. unfold require_key.
  destruct (String.eqb_spec (API_KEY w) EmptyString) as [E | _]; [contradiction|].
  destruct x_api_key as [k|]; [|reflexivity].
  destruct (String.eqb_spec k (API_KEY w)) as [-> | _]; [congruence | reflexivity].
Qed.

Lemma require_key_open x_api_key :
  API_KEY w = EmptyString -> require_key w x_api_key = Ok tt.
Proof. intros E. unfold require_key. now rewrite E. Qed.

Lemma require_key_right : require_key w (Some (API_KEY w)) = Ok tt.
Proof.
  unfold require_key. rewrite String.eqb_refl. cbn.
  now rewrite andb_false_r.
Qed.

End Authentication.

(** X1: with an [API_KEY] configured, a request whose key is missing or
    different is answered 401 by every handler, and neither the database
    nor the aliases change. *)
Theorem wrong_key_stops_every_handler
  (w : env) (x_api_key : option string) (s : store) (t : Aliases.table) :
  API_KEY w <> EmptyString ->
  x_api_key <> Some (API_KEY w) ->
  let denied := HTTPException 401 Unauthorized in
  get_expense_schema w x_api_key s = (Err denied, s)
  /\ (forall req, create_field w x_api_key req s = (Err denied, s))
  /\ (forall k req, update_field w x_api_key k req s = (Err denied, s))
  /\ (forall k hard, delete_field w x_api_key k hard s = (Err denied, s))
  /\ (forall e, create_expense w x_api_key e s = (Err denied, s))
  /\ (forall qy, list_expenses w x_api_key qy s = (Err denied, s))
  /\ (forall id, get_expense w x_api_key id s = (Err denied, s))
  /\ (forall id req, update_expense w x_api_key id req s = (Err denied, s))
  /\ (forall req, Aliases.create_alias w x_api_key req t
                  = (Aliases.Raised 401 "Unauthorized", t))
  /\ (forall q, Aliases.list_aliases w x_api_key q t
                = (Aliases.Raised 401 "Unauthorized", t))
  /\ (forall id, Aliases.delete_alias w x_api_key id t
                 = (Aliases.Raised 401 "Unauthorized", t)).
Proof.
  intros Hk Hx denied. pose proof (require_key_wrong w Hk Hx) as K.
  unfold get_expense_schema, create_field, update_field, delete_field,
    create_expense, list_expenses, get_expense, update_expense,
    Aliases.create_alias, Aliases.list_aliases, Aliases.delete_alias,
    Aliases.key_accepted.
  rewrite K. repeat split.
Qed.

Lemma wrong_key_stops_every_handler_witness :
  get_expense_schema Sample.noon (Some "guess") Sample.seeded
  = (Err (HTTPException 401 Unauthorized), Sample.seeded).
Proof.
  apply (@wrong_key_stops_every_handler Sample.noon (Some "guess")
           Sample.seeded []); discriminate.
Defined.

(** ** The schema store *)

Section SchemaStore.

Variable w : env.
Variable x_api_key : option string.
Hypothesis K : require_key w x_api_key = Ok tt.

Lemma select_field_none s k : select_field s k = None <-> ~ In k (field_keys s).
Proof.
  unfold select_field, field_keys.
  induction (schema_fields s) as [|f r IH]; cbn [find map In]; [tauto|].
  destruct (String.eqb_spec (f_key f) k) as [E | N].
  - split; [discriminate | intros H; exfalso; apply H; now left].
  - rewrite IH. tauto.
Qed.

Lemma select_field_some s k f :
  select_field s k = Some f -> In f (schema_fields s) /\ f_key f = k.
Proof.
  unfold select_field. intros H. apply find_some in H as [H1 H2].
  split; [exact H1 | now apply String.eqb_eq].
Qed.

Lemma select_field_in s k :
  In k (field_keys s) -> exists f, select_field s k = Some f.
Proof.
  intros H. destruct (select_field s k) as [f|] eqn:E; [eauto|].
  now apply select_field_none in E.
Qed.

(** Every mutation ends the same way: bump, then answer with the schema. *)
Lemma bump_and_answer mid :
  (let (_, s2) := bump_schema_version w mid in get_expense_schema w x_api_key s2)
  = (Ok (mkSchemaView "expense" (fst (bump_schema_version w mid)) (now w)
                      (schema_fields mid)),
     snd (bump_schema_version w mid)).
Proof.
  rewrite (surjective_pairing (bump_schema_version w mid)) at 1.
  now rewrite (@get_expense_schema_ok w x_api_key _ _ K
                 (bump_schema_version_meta w mid)).
Qed.

Lemma create_field_done req s :
  select_field s (cf_key req) = None ->
  create_field w x_api_key req s
  = (Ok (mkSchemaView "expense"
           (fst (bump_schema_version w
                   (with_fields s (schema_fields s ++ [new_row req]))))
           (now w) (schema_fields s ++ [new_row req])),
     snd (bump_schema_version w (with_fields s (schema_fields s ++ [new_row req])))).
Proof.
  intros F. unfold create_field. rewrite K, F. apply bump_and_answer.
Qed.

Lemma update_field_done k req s f :
  select_field s k = Some f -> no_updates req = false ->
  let rows := map (fun g => if has_key k g then apply_updates req g else g)
                  (schema_fields s) in
  update_field w x_api_key k req s
  = (Ok (mkSchemaView "expense"
           (fst (bump_schema_version w (with_fields s rows))) (now w) rows),
     snd (bump_schema_version w (with_fields s rows))).
Proof.
  intros F N rows. unfold update_field. rewrite K, F, N. apply bump_and_answer.
Qed.

Lemma delete_field_done k (hard : bool) s f :
  select_field s k = Some f ->
  let rows :=
    if hard then filter (fun g => negb (has_key k g)) (schema_fields s)
    else map (fun g => if has_key k g then disable g else g) (schema_fields s) in
  delete_field w x_api_key k hard s
  = (Ok (mkSchemaView "expense"
           (fst (bump_schema_version w (with_fields s rows))) (now w) rows),
     snd (bump_schema_version w (with_fields s rows))).
Proof.
  intros F rows. unfold delete_field. rewrite K, F. apply bump_and_answer.
Qed.

Lemma select_field_none_not s k :
  select_field s k <> None -> In k (field_keys s).
Proof.
  intros H. destruct (in_dec string_dec k (field_keys s)) as [I | N]; [exact I|].
  now apply select_field_none in N.
Qed.

Lemma create_field_rejects_existing_key_aux req s :
  In (cf_key req) (field_keys s) ->
  create_field w x_api_key req s = (Err (HTTPException 409 FieldKeyExists), s).
Proof.
  intros H. apply select_field_in in H as [f F].
  unfold create_field. now rewrite K, F.
Qed.

Lemma find_key_app (l : list field) k row :
  find (fun f => String.eqb (f_key f) k) (l ++ [row])
  = match find (fun f => String.eqb (f_key f) k) l with
    | Some f => Some f
    | None => if String.eqb (f_key row) k then Some row else None
    end.
Proof.
  induction l as [|f r IH]; cbn [app find]; [reflexivity|].
  destruct (String.eqb (f_key f) k); [reflexivity | exact IH].
Qed.

Lemma find_key_map (g : field -> field) (l : list field) k :
  (forall f, f_key (g f) = f_key f) ->
  find (fun f => String.eqb (f_key f) k) (map g l)
  = option_map g (find (fun f => String.eqb (f_key f) k) l).
Proof.
  intros Hg. induction l as [|f r IH]; cbn [map find option_map]; [reflexivity|].
  rewrite Hg. destruct (String.eqb (f_key f) k); [reflexivity | exact IH].
Qed.

Lemma find_key_filter_other (l : list field) k k' :
  find (fun f => String.eqb (f_key f) k')
       (filter (fun g => negb (has_key k g)) l)
  = if String.eqb k k' then None
    else find (fun f => String.eqb (f_key f) k') l.
Proof.
  induction l as [|f r IH]; cbn [filter find].
  - now destruct (String.eqb k k').
  - unfold has_key at 1. destruct (String.eqb_spec (f_key f) k) as [E | N]; cbn [negb].
    + rewrite IH. destruct (String.eqb_spec k k') as [E' | N']; [reflexivity|].
      destruct (String.eqb_spec (f_key f) k'); [congruence | reflexivity].
    + cbn [find]. rewrite IH.
      destruct (String.eqb_spec (f_key f) k') as [E' | N'];
        destruct (String.eqb_spec k k'); congruence.
Qed.

End SchemaStore.

(** X2: [create_field] answers 409 when a row with the key exists, enabled
    or disabled, and writes nothing. *)
Theorem create_field_rejects_existing_key
  (w : env) (x_api_key : option string) (req : CreateFieldRequest) (s : store) :
  require_key w x_api_key = Ok tt ->
  In (cf_key req) (field_keys s) ->
  create_field w x_api_key req s = (Err (HTTPException 409 FieldKeyExists), s).
Proof.
  intros K H. now apply create_field_rejects_existing_key_aux.
Qed.

Lemma create_field_rejects_existing_key_witness :
  create_field Sample.noon Sample.key
    (mkCreateField "vendor" "Vendor" TString None None None None) Sample.seeded
  = (Err (HTTPException 409 FieldKeyExists), Sample.seeded).
Proof.
  apply (@create_field_rejects_existing_key Sample.noon Sample.key
           (mkCreateField "vendor" "Vendor" TString None None None None)
           Sample.seeded eq_refl).
  cbn. tauto.
Defined.

(** X3: [create_field] with a key no row has succeeds: the row goes last,
    it is the row a lookup of the key finds, lookups of other keys are as
    before, the answer lists the new fields, the version row holds the
    version answered, and the expenses are untouched. *)
Theorem create_field_appends_row
  (w : env) (x_api_key : option string) (req : CreateFieldRequest) (s : store) :
  require_key w x_api_key = Ok tt ->
  ~ In (cf_key req) (field_keys s) ->
  exists view s',
    create_field w x_api_key req s = (Ok view, s')
    /\ schema_fields s' = schema_fields s ++ [new_row req]
    /\ sv_fields view = schema_fields s'
    /\ select_field s' (cf_key req) = Some (new_row req)
    /\ (forall k, k <> cf_key req -> select_field s' k = select_field s k)
    /\ schema_meta s' = Some (mkMeta (sv_version view) (now w))
    /\ expenses s' = expenses s.
Proof.
  intros K H. apply select_field_none in H.
  eexists _, _. split; [apply (@create_field_done _ _ K _ _ H)|].
  cbn [sv_fields sv_version]. repeat split.
  - unfold select_field in *. cbn [schema_fields snd bump_schema_version with_meta with_fields].
    rewrite find_key_app, H. cbn [new_row f_key]. now rewrite String.eqb_refl.
  - intros k N. unfold select_field. cbn [schema_fields snd bump_schema_version with_meta with_fields].
    rewrite find_key_app. destruct (find _ (schema_fields s)); [reflexivity|].
    cbn [new_row f_key]. destruct (String.eqb_spec (cf_key req) k); congruence.
Qed.

Lemma create_field_appends_row_witness :
  exists view s',
    create_field Sample.noon Sample.key Sample.project_field Sample.seeded
    = (Ok view, s')
    /\ schema_fields s' = schema_fields Sample.seeded ++ [new_row Sample.project_field]
    /\ sv_fields view = schema_fields s'
    /\ select_field s' (cf_key Sample.project_field)
       = Some (new_row Sample.project_field)
    /\ (forall k, k <> cf_key Sample.project_field ->
                  select_field s' k = select_field Sample.seeded k)
    /\ schema_meta s' = Some (mkMeta (sv_version view) (now Sample.noon))
    /\ expenses s' = expenses Sample.seeded.
Proof.
  apply (@create_field_appends_row Sample.noon Sample.key Sample.project_field
           Sample.seeded eq_refl).
  cbn. intros H. repeat (destruct H as [H | H]; [discriminate H|]). exact H.
Defined.

(** X4: [update_field] and [delete_field] answer 404 for a key no row has,
    and write nothing. *)
Theorem unknown_field_is_not_found
  (w : env) (x_api_key : option string) (k : string) (s : store) :
  require_key w x_api_key = Ok tt ->
  ~ In k (field_keys s) ->
  (forall req, update_field w x_api_key k req s
               = (Err (HTTPException 404 FieldNotFound), s))
  /\ (forall hard, delete_field w x_api_key k hard s
                   = (Err (HTTPException 404 FieldNotFound), s)).
Proof.
  intros K H. apply select_field_none in H.
  unfold update_field, delete_field. rewrite K, H. split; reflexivity.
Qed.

Lemma unknown_field_is_not_found_witness :
  (forall req, update_field Sample.noon Sample.key "project" req Sample.seeded
               = (Err (HTTPException 404 FieldNotFound), Sample.seeded))
  /\ (forall hard, delete_field Sample.noon Sample.key "project" hard Sample.seeded
                   = (Err (HTTPException 404 FieldNotFound), Sample.seeded)).
Proof.
  apply (@unknown_field_is_not_found Sample.noon Sample.key "project"
           Sample.seeded eq_refl).
  cbn. intros H. repeat (destruct H as [H | H]; [discriminate H|]). exact H.
Defined.

(** X5: an [update_field] that names at least one attribute rewrites the
    row of that key with the attributes named and leaves the others: keys
    and row order stay, a lookup of the key finds the rewritten row, lookups
    of other keys are as before, and the expenses are untouched. *)
Theorem update_field_rewrites_one_row
  (w : env) (x_api_key : option string) (k : string)
  (req : UpdateFieldRequest) (s : store) (f : field) :
  require_key w x_api_key = Ok tt ->
  select_field s k = Some f ->
  no_updates req = false ->
  exists view s',
    update_field w x_api_key k req s = (Ok view, s')
    /\ field_keys s' = field_keys s
    /\ select_field s' k = Some (apply_updates req f)
    /\ f_key (apply_updates req f) = k
    /\ (forall k', k' <> k -> select_field s' k' = select_field s k')
    /\ sv_fields view = schema_fields s'
    /\ expenses s' = expenses s.
Proof.
  intros K F N. eexists _, _. split; [apply (@update_field_done _ _ K _ _ _ _ F N)|].
  cbn [sv_fields]. set (g := fun h => if has_key k h then apply_updates req h else h).
  assert (forall h, f_key (g h) = f_key h) as Hg
    by (intros h; unfold g; now destruct (has_key k h)).
  pose proof (@select_field_some _ _ _ F) as [_ Fk].
  repeat split.
  - unfold field_keys. cbn [schema_fields snd bump_schema_version with_meta with_fields].
    rewrite map_map. apply map_ext, Hg.
  - unfold select_field in *. cbn [schema_fields snd bump_schema_version with_meta with_fields].
    rewrite (find_key_map g _ _ Hg), F. cbn [option_map]. unfold g, has_key.
    now rewrite Fk, String.eqb_refl.
  - exact Fk.
  - intros k' N'. unfold select_field.
    cbn [schema_fields snd bump_schema_version with_meta with_fields].
    rewrite (find_key_map g _ _ Hg).
    destruct (find (fun h => String.eqb (f_key h) k') (schema_fields s))
      as [h|] eqn:E; [|reflexivity].
    cbn [option_map]. apply find_some in E as [_ E]. apply String.eqb_eq in E.
    unfold g, has_key. destruct (String.eqb_spec (f_key h) k); [congruence | reflexivity].
Qed.

Lemma update_field_rewrites_one_row_witness :
  exists view s',
    update_field Sample.noon Sample.key "vendor"
      (mkUpdateField (Some "Comercio") None (Some true) None None None) Sample.seeded
    = (Ok view, s')
    /\ select_field s' "vendor"
       = Some (mkField "vendor" "Comercio" TString true true
                       (Some "Proveedor / comercio") None).
Proof.
  destruct (@update_field_rewrites_one_row Sample.noon Sample.key "vendor"
              (mkUpdateField (Some "Comercio") None (Some true) None None None)
              Sample.seeded
              (mkField "vendor" "Proveedor" TString false true
                       (Some "Proveedor / comercio") None)
              eq_refl eq_refl eq_refl)
    as (view & s' & H1 & _ & H3 & _).
  exists view, s'. split; [exact H1 | exact H3].
Defined.

(** X6: a key stays taken after a soft delete and is free again after a
    hard delete: on the store a soft delete leaves, [create_field] with the
    key answers 409; on the store a hard delete leaves, no row has the key,
    lookups of other keys are as before, and [create_field] with the key
    succeeds. *)
Theorem hard_delete_frees_the_key
  (w : env) (x_api_key : option string) (k : string) (s : store) (f : field)
  (req : CreateFieldRequest) :
  require_key w x_api_key = Ok tt ->
  select_field s k = Some f ->
  cf_key req = k ->
  let soft := snd (delete_field w x_api_key k false s) in
  let hard := snd (delete_field w x_api_key k true s) in
  create_field w x_api_key req soft = (Err (HTTPException 409 FieldKeyExists), soft)
  /\ select_field hard k = None
  /\ (forall k', k' <> k -> select_field hard k' = select_field s k')
  /\ exists view s',
       create_field w x_api_key req hard = (Ok view, s')
       /\ select_field s' k = Some (new_row req).
Proof.
  intros K F E soft hard.
  assert (schema_fields soft
          = map (fun g => if has_key k g then disable g else g) (schema_fields s))
    as Hs by (unfold soft; now rewrite (@delete_field_done _ _ K k false _ _ F)).
  assert (schema_fields hard
          = filter (fun g => negb (has_key k g)) (schema_fields s))
    as Hh by (unfold hard; now rewrite (@delete_field_done _ _ K k true _ _ F)).
  assert (select_field hard k = None) as Hnone.
  { unfold select_field. rewrite Hh, find_key_filter_other.
    now rewrite String.eqb_refl. }
  split; [|split; [exact Hnone | split]].
  - apply create_field_rejects_existing_key_aux; [exact K|].
    rewrite E. apply select_field_none_not. unfold select_field. rewrite Hs.
    rewrite find_key_map by (intros h; now destruct (has_key k h)).
    unfold select_field in F. now rewrite F.
  - intros k' N. unfold select_field. rewrite Hh, find_key_filter_other.
    destruct (String.eqb_spec k k'); [congruence | reflexivity].
  - rewrite <- E in Hnone.
    eexists _, _. split; [apply (@create_field_done _ _ K _ _ Hnone)|].
    unfold select_field in *.
    cbn [schema_fields snd bump_schema_version with_meta with_fields].
    rewrite find_key_app, <- E, Hnone. cbn [new_row f_key].
    now rewrite String.eqb_refl.
Qed.

Lemma hard_delete_frees_the_key_witness :
  select_field (snd (delete_field Sample.noon Sample.key "vendor" true Sample.seeded))
               "vendor" = None.
Proof.
  exact (proj1 (proj2 (@hard_delete_frees_the_key Sample.noon Sample.key "vendor"
           Sample.seeded
           (mkField "vendor" "Proveedor" TString false true
                    (Some "Proveedor / comercio") None)
           (mkCreateField "vendor" "Vendor" TString None None None None)
           eq_refl eq_refl eq_refl))).
Defined.

Section MutationFrames.

Variable w : env.
Variable x_api_key : option string.

Lemma run_mutation_step m s :
  rows_step (schema_fields s) (schema_fields (snd (run_mutation w x_api_key m s)))
  /\ expenses (snd (run_mutation w x_api_key m s)) = expenses s.
Proof.
  destruct (require_key w x_api_key) as [[]|e] eqn:K.
  - destruct m as [req | k req | k | k]; cbn [run_mutation].
    + destruct (select_field s (cf_key req)) as [f|] eqn:F.
      * unfold create_field. rewrite K, F. split; [constructor | reflexivity].
      * rewrite (@create_field_done _ _ K _ _ F). split; [|reflexivity].
        apply (rows_added _ (new_row req)). now apply select_field_none in F.
    + destruct (select_field s k) as [f|] eqn:F.
      * destruct (no_updates req) eqn:N.
        -- unfold update_field. rewrite K, F, N.
           pose proof (get_schema_version_frame w s) as [F1 F2].
           unfold get_expense_schema. rewrite K.
           destruct (get_schema_version w s) as [v s1]. cbn [snd] in *.
           rewrite F1. split; [constructor | exact F2].
        -- rewrite (@update_field_done _ _ K _ _ _ _ F N). split; [|reflexivity].
           apply rows_rewritten. intros h. now destruct (has_key k h).
      * unfold update_field. rewrite K, F. split; [constructor | reflexivity].
    + destruct (select_field s k) as [f|] eqn:F.
      * rewrite (@delete_field_done _ _ K k false _ _ F). split; [|reflexivity].
        apply rows_rewritten. intros h. now destruct (has_key k h).
      * unfold delete_field. rewrite K, F. split; [constructor | reflexivity].
    + destruct (select_field s k) as [f|] eqn:F.
      * rewrite (@delete_field_done _ _ K k true _ _ F). split; [|reflexivity].
        apply rows_removed.
      * unfold delete_field. rewrite K, F. split; [constructor | reflexivity].
  - assert (snd (run_mutation w x_api_key m s) = s) as ->.
    { destruct m; cbn [run_mutation];
        unfold create_field, update_field, delete_field; now rewrite K. }
    split; [constructor | reflexivity].
Qed.

Lemma NoDup_map_filter {A B : Type} (h : A -> B) p (l : list A) :
  NoDup (map h l) -> NoDup (map h (filter p l)).
Proof.
  induction l as [|x r IH]; cbn [map filter]; [auto|].
  intros N. inversion N as [|? ? Hn Hr]; subst.
  destruct (p x); cbn [map]; [|auto]. constructor; [|auto].
  intros H. apply Hn. apply in_map_iff in H as (y & E & Hy).
  apply filter_In in Hy as [Hy _]. apply in_map_iff. eauto.
Qed.

Lemma NoDup_snoc {A : Type} (l : list A) x :
  NoDup l -> ~ In x l -> NoDup (l ++ [x]).
Proof.
  induction l as [|y r IH]; cbn [app]; intros N H.
  - constructor; [tauto | constructor].
  - inversion N as [|? ? Hn Hr]; subst. constructor.
    + rewrite in_app_iff. cbn in *. intuition congruence.
    + apply IH; [exact Hr | cbn in H; tauto].
Qed.

Lemma rows_step_unique old rows :
  rows_step old rows -> NoDup (map f_key old) -> NoDup (map f_key rows).
Proof.
  intros [| row H | g H | p] N.
  - exact N.
  - rewrite map_app. cbn [map]. now apply NoDup_snoc.
  - rewrite map_map. now rewrite (map_ext _ _ H).
  - now apply NoDup_map_filter.
Qed.

End MutationFrames.

(** X7: no two schema rows share a key: whatever a mutation does, succeed
    or fail, schema rows with different keys have different keys
    afterwards. *)
Theorem schema_keys_stay_unique
  (w : env) (x_api_key : option string) (m : mutation) (s : store) :
  NoDup (field_keys s) ->
  NoDup (field_keys (snd (run_mutation w x_api_key m s))).
Proof.
  intros N. destruct (run_mutation_step w x_api_key m s) as [R _].
  exact (rows_step_unique R N).
Qed.

Lemma seed_fields_keys_unique : NoDup (map f_key seed_fields).
Proof.
  cbn [seed_fields map f_key].
  repeat (constructor;
          [intros H; cbn [In] in H;
           repeat (destruct H as [H | H]; [discriminate H|]); exact H|]).
  constructor.
Qed.

(** The ten rows of the initial schema, then a field added to them. *)
Lemma schema_keys_stay_unique_witness :
  NoDup (field_keys (snd (run_mutation Sample.noon Sample.key
                            (CreateField Sample.project_field) Sample.seeded)))
  /\ length (field_keys (snd (run_mutation Sample.noon Sample.key
                                (CreateField Sample.project_field) Sample.seeded)))
     = 11.
Proof.
  split; [|reflexivity].
  apply (@schema_keys_stay_unique Sample.noon Sample.key
           (CreateField Sample.project_field) Sample.seeded).
  exact seed_fields_keys_unique.
Defined.

(** X8: the handlers stay on their own tables.  Schema mutations, the
    schema read and start-up never change the expenses; the expense
    handlers never change the schema rows, reads of expenses change
    nothing at all, and [update_expense] leaves the version row alone. *)
Theorem handlers_keep_to_their_tables
  (w : env) (x_api_key : option string) (s : store) :
  (forall m, expenses (snd (run_mutation w x_api_key m s)) = expenses s)
  /\ expenses (snd (get_expense_schema w x_api_key s)) = expenses s
  /\ expenses (snd (init_db w s)) = expenses s
  /\ (forall e, schema_fields (snd (create_expense w x_api_key e s)) = schema_fields s)
  /\ (forall id req,
        schema_fields (snd (update_expense w x_api_key id req s)) = schema_fields s
        /\ schema_meta (snd (update_expense w x_api_key id req s)) = schema_meta s)
  /\ (forall id, snd (get_expense w x_api_key id s) = s)
  /\ (forall qy, snd (list_expenses w x_api_key qy s) = s).
Proof.
  repeat split.
  - intros m. apply run_mutation_step.
  - unfold get_expense_schema. destruct (require_key w x_api_key); [|reflexivity].
    pose proof (get_schema_version_frame w s) as [_ F].
    now destruct (get_schema_version w s).
  - unfold init_db, seed_schema_if_empty. now destruct (schema_fields s).
  - intros e. unfold create_expense.
    destruct (require_key w x_api_key); [|reflexivity].
    destruct (validate_against_schema s (model_dump e)); [|reflexivity].
    pose proof (get_schema_version_frame w s) as [F _].
    destruct (get_schema_version w s) as [v s1]. cbn [snd] in F.
    now rewrite dumps_model_dump.
  - destruct (update_expense w x_api_key id req s) as [[view|e] s'] eqn:U.
    + apply update_expense_ok in U as (r & _ & _ & ->). reflexivity.
    + apply update_expense_err in U. now subst.
  - destruct (update_expense w x_api_key id req s) as [[view|e] s'] eqn:U.
    + apply update_expense_ok in U as (r & _ & _ & ->). reflexivity.
    + apply update_expense_err in U. now subst.
  - intros id. unfold get_expense.
    destruct (require_key w x_api_key); [|reflexivity].
    now destruct (select_expense s id).
  - intros qy. unfold list_expenses.
    destruct (require_key w x_api_key); [|reflexivity].
    now destruct (collect_items w qy (select_page s (q_limit qy))).
Qed.

(** X9: the version is bootstrapped once.  Reading the version of a store
    with no version row writes [<today>.1], also when the read is the GET of
    the schema; any later read, on whatever day, answers the stored version
    and writes nothing. *)
Theorem version_is_bootstrapped_once (w w' : env) (s : store) :
  (schema_meta s = None ->
   get_schema_version w s
   = (version_of (today w) 1,
      mkStore (Some (mkMeta (version_of (today w) 1) (now w)))
              (schema_fields s) (expenses s)))
  /\ (forall x_api_key,
        schema_meta s = None -> require_key w x_api_key = Ok tt ->
        get_expense_schema w x_api_key s
        = (Ok (mkSchemaView "expense" (version_of (today w) 1) (now w)
                            (schema_fields s)),
           mkStore (Some (mkMeta (version_of (today w) 1) (now w)))
                   (schema_fields s) (expenses s)))
  /\ get_schema_version w' (snd (get_schema_version w s))
     = (fst (get_schema_version w s), snd (get_schema_version w s)).
Proof.
  assert (schema_meta s = None ->
          get_schema_version w s
          = (version_of (today w) 1,
             mkStore (Some (mkMeta (version_of (today w) 1) (now w)))
                     (schema_fields s) (expenses s))) as H.
  { intros E. unfold get_schema_version, bump_schema_version. now rewrite E. }
  split; [exact H | split].
  - intros x_api_key E K. unfold get_expense_schema. rewrite K, (H E). reflexivity.
  - destruct (get_schema_version_meta w s) as [u Hu].
    now rewrite (@get_schema_version_stored w' _ _ Hu).
Qed.

(** X10: bumps on one day count up: after the first bump of a run the
    version is today's date with some counter [c], which is 1 when no
    version was stored, and after [n] more bumps the counter is [c + n]. *)
Theorem bumps_count_up (w : env) (s : store) :
  exists c : Z,
    (schema_meta s = None -> c = 1%Z)
    /\ forall n : nat,
         schema_meta (bump_times (S n) w s)
         = Some (mkMeta (version_of (today w) (c + Z.of_nat n)) (now w)).
Proof.
  destruct (next_version_shape w (today w) (option_map m_version (schema_meta s)))
    as [c Hc].
  assert (schema_meta s = None -> c = 1%Z) as H1.
  { intros E. rewrite E in Hc.
    assert (version_of (today w) 1 = version_of (today w) c) as Hv by exact Hc.
    apply (f_equal (fun v => int_of_str w (last_segment v))) in Hv.
    rewrite !version_of_counter in Hv. congruence. }
  exists c. split; [exact H1|].
  induction n as [|n IH].
  - cbn [bump_times]. rewrite bump_schema_version_meta.
    unfold bump_schema_version. cbn [fst]. rewrite Hc.
    now rewrite Z.add_0_r.
  - change (bump_times (S (S n)) w s)
      with (snd (bump_schema_version w (bump_times (S n) w s))).
    rewrite bump_schema_version_meta.
    unfold bump_schema_version at 1. cbn [fst]. rewrite IH.
    cbn [option_map m_version]. rewrite next_version_same_day.
    do 2 f_equal. f_equal. lia.
Qed.

Lemma bumps_count_up_fresh_example :
  schema_meta (bump_times 3 Sample.noon (mkStore None [] []))
  = Some (mkMeta "2024-01-01.3" "2024-01-01T12:00:00").
Proof. reflexivity. Qed.



(** ** Validation *)

Section OpenWorld.

Variable fields : list field.
Variable k : string.
Hypothesis not_enabled : enabled_field fields k = None.

Lemma enabled_keys_differ f :
  In f fields -> f_enabled f = true -> f_key f <> k.
Proof.
  intros Hin En E. unfold enabled_field in not_enabled.
  assert (String.eqb (f_key f) k = false) as H.
  { apply (find_none _ _ not_enabled f).
    apply in_rev. rewrite rev_involutive. apply filter_In. auto. }
  apply String.eqb_neq in H. contradiction.
Qed.

Lemma get_set_other d v k' : k' <> k -> get (set d k v) k' = get d k'.
Proof.
  intros N. unfold get. rewrite lookup_set.
  destruct (String.eqb_spec k k'); [congruence | reflexivity].
Qed.

Lemma check_required_set payload v :
  forall l, incl l fields ->
  check_required l (set payload k v) = check_required l payload.
Proof.
  induction l as [|f r IH]; intros I; [reflexivity|].
  cbn [check_required]. rewrite IH by (intros x Hx; apply I; now right).
  destruct (f_enabled f) eqn:En; [|reflexivity].
  rewrite get_set_other; [reflexivity|].
  apply enabled_keys_differ; [apply I; now left | exact En].
Qed.

Lemma check_enum_not_enabled v : check_enum fields k v = Ok tt.
Proof. unfold check_enum. now rewrite not_enabled. Qed.

Lemma check_enums_set payload v :
  check_enums fields (set payload k v) = check_enums fields payload.
Proof.
  induction payload as [|[k0 v0] r IH]; cbn [set check_enums].
  - now rewrite check_enum_not_enabled.
  - destruct (String.eqb_spec k0 k) as [-> | N]; cbn [check_enums].
    + now rewrite !check_enum_not_enabled.
    + now rewrite IH.
Qed.

End OpenWorld.

(** X12: validation is blind to keys that are not enabled schema fields:
    setting such a key in a document, to any value, whether the key is
    unknown to the schema or belongs to a disabled field, does not change
    the verdict. *)
Theorem unmodelled_keys_pass_validation
  (s : store) (payload : dict) (k : string) (v : pyval) :
  enabled_field (load_fields s) k = None ->
  validate_against_schema s (set payload k v) = validate_against_schema s payload.
Proof.
  intros H. unfold validate_against_schema.
  rewrite (@check_required_set _ _ H payload v _ (incl_refl _)).
  now rewrite (@check_enums_set _ _ H payload v).
Qed.

Lemma unmodelled_keys_pass_validation_witness :
  validate_against_schema Sample.seeded
    (set Sample.lunch_doc "cost_center" (VList [VInt 7]))
  = validate_against_schema Sample.seeded Sample.lunch_doc.
Proof.
  apply (@unmodelled_keys_pass_validation Sample.seeded Sample.lunch_doc
           "cost_center" (VList [VInt 7])).
  reflexivity.
Defined.

(** X13: a null under an enabled enum field with a non-empty list of values
    is refused like any other value off the list, required or not: the
    document is rejected with a 400. *)
Theorem null_under_enum_is_rejected
  (s : store) (payload : dict) (k : string) (allowed : list string) :
  In (k, VNone) payload ->
  constrained (load_fields s) k allowed ->
  exists d, validate_against_schema s payload = Err (HTTPException 400 d).
Proof.
  intros Hin C. unfold validate_against_schema.
  destruct (check_required (load_fields s) payload) as [[]|e] eqn:R; cbn [bind].
  - destruct (check_enums (load_fields s) payload) as [[]|e] eqn:E.
    + exfalso.
      pose proof (proj1 (check_enums_ok _ _) E k VNone Hin) as H.
      apply (proj1 (check_enum_ok _ _ _)) with (allowed := allowed) in H; [|exact C].
      destruct H as (t & Ht & _). discriminate.
    + apply check_enums_err in E as (k' & v' & _ & E).
      apply check_enum_err in E as (a & _ & _ & ->). eauto.
  - apply check_required_names in R as (f & _ & _ & _ & _ & ->). eauto.
Qed.

Lemma null_under_enum_is_rejected_witness :
  exists d,
    validate_against_schema Sample.seeded
      (model_dump (mkExpenseInput Sample.jan1 "10.0" "ARS" None None None None
                     None None None None None None None None None None None))
    = Err (HTTPException 400 d).
Proof.
  apply (@null_under_enum_is_rejected Sample.seeded _ "status"
           ["pending_confirmation"; "confirmed"; "rejected"]).
  - cbn. tauto.
  - eexists. repeat split; try reflexivity. discriminate.
Defined.

(** X14: the required check runs first and stops at the first field, in
    row order, that is enabled, required and has no value: the error names
    that field, whatever else is wrong with the document. *)
Theorem first_missing_required_is_named
  (s : store) (payload : dict) (before after : list field) (f : field) :
  schema_fields s = before ++ f :: after ->
  (forall g, In g before ->
             f_enabled g && f_required g && is_none (get payload (f_key g)) = false) ->
  f_enabled f = true -> f_required f = true ->
  is_none (get payload (f_key f)) = true ->
  validate_against_schema s payload
  = Err (HTTPException 400 (MissingRequiredField (f_key f))).
Proof.
  intros E B En Rq Nn. unfold validate_against_schema, load_fields. rewrite E.
  assert (check_required (before ++ f :: after) payload
          = Err (HTTPException 400 (MissingRequiredField (f_key f)))) as ->;
    [|reflexivity].
  clear E. induction before as [|g r IH]; cbn [app check_required].
  - now rewrite En, Rq, Nn.
  - rewrite (B g (or_introl eq_refl)). apply IH.
    intros h Hh. apply B. now right.
Qed.

Lemma first_missing_required_is_named_witness :
  validate_against_schema Sample.seeded
    [("currency", VStr "EUR"); ("date", VStr "2024-01-01")]
  = Err (HTTPException 400 (MissingRequiredField "amount")).
Proof.
  apply (@first_missing_required_is_named Sample.seeded
           [("currency", VStr "EUR"); ("date", VStr "2024-01-01")]
           (firstn 1 seed_fields) (skipn 2 seed_fields)
           (mkField "amount" "Monto" TNumber true true (Some "Monto total") None));
    try reflexivity.
  intros g [<- | []]. reflexivity.
Defined.

(** ** Documents and expenses *)

Section DictKeys.

Lemma set_keys_in d k v : In k (map fst d) -> map fst (set d k v) = map fst d.
Proof.
  induction d as [|[k0 v0] r IH]; cbn [map fst set In]; [tauto|].
  intros H. destruct (String.eqb_spec k0 k) as [E | N]; [reflexivity|].
  cbn [map fst]. f_equal. apply IH. tauto.
Qed.

Lemma set_keys_new d k v :
  ~ In k (map fst d) -> map fst (set d k v) = map fst d ++ [k].
Proof.
  induction d as [|[k0 v0] r IH]; cbn [map fst set In app]; [reflexivity|].
  intros H. destruct (String.eqb_spec k0 k) as [E | N]; [tauto|].
  cbn [map fst]. f_equal. apply IH. tauto.
Qed.

Lemma set_keys d k v :
  exists extra, map fst (set d k v) = map fst d ++ extra
                /\ (NoDup (map fst d) -> NoDup (map fst (set d k v))).
Proof.
  destruct (in_dec string_dec k (map fst d)) as [I | N].
  - exists []. rewrite (@set_keys_in d k v I), app_nil_r. auto.
  - exists [k]. rewrite (@set_keys_new d k v N). split; [reflexivity|].
    intros D. now apply NoDup_snoc.
Qed.

Lemma update_keys other :
  forall d, exists extra,
    map fst (update d other) = map fst d ++ extra
    /\ (NoDup (map fst d) -> NoDup (map fst (update d other))).
Proof.
  unfold update. induction other as [|[k v] r IH]; intros d; cbn [fold_left fst snd].
  - exists []. rewrite app_nil_r. auto.
  - destruct (set_keys d k v) as (e1 & E1 & N1).
    destruct (IH (set d k v)) as (e2 & E2 & N2).
    exists (e1 ++ e2). split; [rewrite E2, E1; now rewrite <- app_assoc | auto].
Qed.

Lemma merged_data_keys data req :
  exists extra,
    map fst (merged_data data req) = map fst data ++ extra
    /\ (NoDup (map fst data) -> NoDup (map fst (merged_data data req))).
Proof.
  unfold merged_data. cbv zeta.
  destruct (u_data req) as [patch|].
  - destruct (update_keys (drop_none (model_dump patch)) data) as (e1 & E1 & N1).
    destruct (u_status req) as [st|]; [|eauto].
    destruct (set_keys (update data (drop_none (model_dump patch))) "status" (VStr st))
      as (e2 & E2 & N2).
    exists (e1 ++ e2). split; [rewrite E2, E1; now rewrite <- app_assoc | auto].
  - destruct (u_status req) as [st|]; [apply set_keys|].
    exists []. rewrite app_nil_r. auto.
Qed.

End DictKeys.

(** X15: the merge of [update_expense] keeps the keys of the stored
    document where they are and puts new keys after them; a document
    without repeated keys stays without repeated keys. *)
Theorem merge_keeps_keys_in_place (data : dict) (req : UpdateExpenseRequest) :
  exists extra,
    map fst (merged_data data req) = map fst data ++ extra
    /\ (NoDup (map fst data) -> NoDup (map fst (merged_data data req))).
Proof. apply merged_data_keys. Qed.

Section ReadingExpenses.

Variable w : env.
Variable x_api_key : option string.
Hypothesis K : require_key w x_api_key = Ok tt.

Lemma select_expense_none s id :
  select_expense s id = None <-> ~ In id (map e_id (expenses s)).
Proof.
  unfold select_expense.
  induction (expenses s) as [|r l IH]; cbn [find map In]; [tauto|].
  destruct (String.eqb_spec (e_id r) id) as [E | N].
  - split; [discriminate | intros H; exfalso; apply H; now left].
  - rewrite IH. tauto.
Qed.

Lemma expense_view_lookup r k :
  NoDup (map fst (e_data r)) ->
  lookup (expense_view r) k
  = match lookup (e_data r) k with
    | Some v => Some v
    | None =>
        lookup [ ("id", VStr (e_id r)); ("created_at", VStr (e_created_at r));
                 ("updated_at", VStr (e_updated_at r));
                 ("schema_version", VStr (e_schema_version r)) ] k
    end.
Proof. intros N. unfold expense_view. now apply lookup_update. Qed.

Lemma update_expense_view id req s view s' :
  update_expense w x_api_key id req s = (Ok view, s') ->
  exists r,
    select_expense s id = Some r
    /\ view = expense_view (mkExpense (e_id r) (e_created_at r) (now w)
                                      (e_schema_version r)
                                      (merged_data (e_data r) req))
    /\ s' = write_expense id (now w) (merged_data (e_data r) req) s.
Proof.
  unfold update_expense. rewrite K.
  destruct (select_expense s id) as [r|] eqn:S; [|discriminate].
  destruct (validate_against_schema s (merged_data (e_data r) req)) as [[]|];
    [|discriminate].
  unfold dumps_for_store.
  destruct (json_dumps (VDict (merged_data (e_data r) req))); [|discriminate].
  unfold get_expense. rewrite K.
  rewrite (@select_after_write _ _ _ _ _ S).
  intros H. injection H as <- <-. exists r. auto.
Qed.

Lemma select_other_after_write s id id' t d :
  id' <> id ->
  select_expense (write_expense id t d s) id' = select_expense s id'.
Proof.
  intros N. unfold select_expense, write_expense, with_expenses. cbn [expenses].
  induction (expenses s) as [|x l IH]; cbn [find map]; [reflexivity|].
  destruct (String.eqb_spec (e_id x) id) as [E | E]; cbn [e_id].
  - destruct (String.eqb_spec (e_id x) id'); [congruence | exact IH].
  - destruct (String.eqb (e_id x) id'); [reflexivity | exact IH].
Qed.

End ReadingExpenses.

(** X16: [get_expense] answers 404 when no row has the id; for a stored
    row it answers the document with the four envelope entries id,
    created_at, updated_at and schema_version, where an entry of the
    document with one of these names takes the place of the envelope's. *)
Theorem get_expense_shows_document
  (w : env) (x_api_key : option string) (id : string) (s : store) :
  require_key w x_api_key = Ok tt ->
  (~ In id (map e_id (expenses s)) ->
   get_expense w x_api_key id s = (Err (HTTPException 404 NotFound), s))
  /\ (forall r,
        select_expense s id = Some r -> NoDup (map fst (e_data r)) ->
        exists view,
          get_expense w x_api_key id s = (Ok view, s)
          /\ forall k,
               lookup view k
               = match lookup (e_data r) k with
                 | Some v => Some v
                 | None =>
                     lookup [ ("id", VStr (e_id r));
                              ("created_at", VStr (e_created_at r));
                              ("updated_at", VStr (e_updated_at r));
                              ("schema_version", VStr (e_schema_version r)) ] k
                 end).
Proof.
  intros K. unfold get_expense. rewrite K. split.
  - intros H. apply select_expense_none in H. now rewrite H.
  - intros r S N. rewrite S. eexists. split; [reflexivity|].
    intros k. now apply expense_view_lookup.
Qed.

Lemma get_expense_shows_document_witness :
  exists view,
    get_expense Sample.noon Sample.key "exp_0123456789abcdef" Sample.moved_on
    = (Ok view, Sample.moved_on)
    /\ lookup view "schema_version" = Some (VStr "2024-01-01.1")
    /\ lookup view "vendor" = Some (VStr "Acme").
Proof.
  destruct (proj2 (@get_expense_shows_document Sample.noon Sample.key
                     "exp_0123456789abcdef" Sample.moved_on eq_refl)
                  Sample.lunch eq_refl) as (view & H & L).
  - cbn. repeat (constructor;
                 [intros H; cbn [In] in H;
                  repeat (destruct H as [H | H]; [discriminate H|]); exact H|]).
    constructor.
  - exists view. split; [exact H|]. split; [apply (L "schema_version") | apply (L "vendor")].
Defined.

(** X17: after an [update_expense] that completes with a status, the
    answer and a later [get_expense] show that status, and every other
    expense is what it was. *)
Theorem update_then_read_shows_status
  (w : env) (x_api_key : option string) (id st : string)
  (req : UpdateExpenseRequest) (s s' : store) (view : dict) :
  update_expense w x_api_key id req s = (Ok view, s') ->
  u_status req = Some st ->
  (forall r, select_expense s id = Some r -> NoDup (map fst (e_data r))) ->
  lookup view "status" = Some (VStr st)
  /\ get_expense w x_api_key id s' = (Ok view, s')
  /\ (forall id', id' <> id -> select_expense s' id' = select_expense s id').
Proof.
  intros U St N.
  assert (require_key w x_api_key = Ok tt) as K.
  { unfold update_expense in U.
    destruct (require_key w x_api_key) as [[]|]; [reflexivity | discriminate]. }
  apply (@update_expense_view _ _ K) in U as (r & S & -> & ->).
  split; [|split].
  - rewrite expense_view_lookup.
    + cbn [e_data]. rewrite lookup_merged_data, St. cbv zeta. cbn. reflexivity.
    + cbn [e_data]. destruct (merged_data_keys (e_data r) req) as (_ & _ & D).
      apply D. now apply N.
  - unfold get_expense. rewrite K. now rewrite (@select_after_write _ _ _ _ _ S).
  - intros id' Hid. now apply select_other_after_write.
Qed.

Lemma update_then_read_shows_status_witness :
  lookup (value_or [] (fst (update_expense Sample.next_day Sample.key
                              "exp_0123456789abcdef" Sample.confirm Sample.moved_on)))
         "status"
  = Some (VStr "confirmed").
Proof.
  refine (proj1 (@update_then_read_shows_status Sample.next_day Sample.key
                   "exp_0123456789abcdef" "confirmed" Sample.confirm
                   Sample.moved_on
                   (snd (update_expense Sample.next_day Sample.key
                           "exp_0123456789abcdef" Sample.confirm Sample.moved_on))
                   _ eq_refl eq_refl _)).
  intros r H. injection H as <-. cbn.
  repeat (constructor;
          [intros H; cbn [In] in H;
           repeat (destruct H as [H | H]; [discriminate H|]); exact H|]).
  constructor.
Defined.

Section ListingEdges.

Variable w : env.
Variable qy : list_query.

Lemma keep_row_unreadable data e :
  row_date w data = Err e -> keep_row w qy data = Err e.
Proof. intros H. unfold keep_row. now rewrite H. Qed.

Lemma collect_items_raises rows r e :
  In r rows -> keep_row w qy (e_data r) = Err e ->
  exists e', collect_items w qy rows = Err e'.
Proof.
  induction rows as [|x l IH]; intros Hin He; [contradiction|].
  cbn [collect_items]. destruct Hin as [-> | Hin].
  - rewrite He. cbn [bind]. eauto.
  - destruct (keep_row w qy (e_data x)) as [b|e0]; cbn [bind]; [|eauto].
    destruct (IH Hin He) as [e' ->]. cbn [bind]. eauto.
Qed.

Hypothesis no_filters :
  q_from qy = None /\ q_to qy = None /\ q_vendor qy = None /\ q_client qy = None
  /\ q_category qy = None /\ q_status qy = None /\ q_q qy = None.

Lemma keep_row_unfiltered data d :
  row_date w data = Ok d -> keep_row w qy data = Ok true.
Proof.
  destruct no_filters as (F1 & F2 & F3 & F4 & F5 & F6 & F7).
  intros H. unfold keep_row. rewrite H, F1, F2, F3, F4, F5, F6, F7. reflexivity.
Qed.

Lemma collect_items_unfiltered rows :
  (forall r, In r rows -> exists d, row_date w (e_data r) = Ok d) ->
  collect_items w qy rows = Ok (map expense_view rows).
Proof.
  induction rows as [|x l IH]; intros H; [reflexivity|].
  cbn [collect_items map]. destruct (H x (or_introl eq_refl)) as [d Hd].
  rewrite (@keep_row_unfiltered _ _ Hd). cbn [bind].
  rewrite IH by (intros r Hr; apply H; now right). reflexivity.
Qed.

End ListingEdges.

(** X18: one row of the page whose date cannot be read, because the
    document has no date, or a date that is not a string, or a string
    [date.fromisoformat] refuses, makes [list_expenses] raise, whatever the
    filters are and even if they would have dropped the row; nothing is
    written. *)
Theorem unreadable_row_breaks_listing
  (w : env) (x_api_key : option string) (qy : list_query) (s : store)
  (r : expense) (e : exn) :
  require_key w x_api_key = Ok tt ->
  In r (select_page s (q_limit qy)) ->
  row_date w (e_data r) = Err e ->
  exists e', list_expenses w x_api_key qy s = (Err e', s).
Proof.
  intros K Hin He. unfold list_expenses. rewrite K.
  destruct (@collect_items_raises w qy _ r e Hin (@keep_row_unreadable w qy _ _ He))
    as [e' ->].
  eauto.
Qed.

(** A row without a date next to the lunch, in a listing for vendor ACME;
    and the lunch with its date as a number. *)
Lemma unreadable_row_breaks_listing_witness :
  (exists e',
     list_expenses Sample.noon Sample.key Sample.one_from_acme
       (mkStore None []
          [Sample.lunch;
           mkExpense "exp_1111111111111111" "2024-01-01T23:00:00"
                     "2024-01-01T23:00:00" "2024-01-01.1"
                     [("vendor", VStr "Beta")]])
     = (Err e',
        mkStore None []
          [Sample.lunch;
           mkExpense "exp_1111111111111111" "2024-01-01T23:00:00"
                     "2024-01-01T23:00:00" "2024-01-01.1"
                     [("vendor", VStr "Beta")]]))
  /\ row_date Sample.noon [("date", VInt 20240101)] = Err TypeError
  /\ row_date Sample.noon [("vendor", VStr "Beta")] = Err (KeyError "date").
Proof.
  split; [|split; reflexivity].
  apply (@unreadable_row_breaks_listing Sample.noon Sample.key Sample.one_from_acme
           _ (mkExpense "exp_1111111111111111" "2024-01-01T23:00:00"
                        "2024-01-01T23:00:00" "2024-01-01.1"
                        [("vendor", VStr "Beta")])
           (KeyError "date") eq_refl).
  - vm_compute. left. reflexivity.
  - reflexivity.
Defined.

(** X19: with no filter at all, [list_expenses] needs only a readable date
    in each row of the page and returns the whole page, latest first: as
    many rows as are stored, up to the limit clamped to 1..200. *)
Theorem unfiltered_listing_is_the_page
  (w : env) (x_api_key : option string) (qy : list_query) (s : store) :
  require_key w x_api_key = Ok tt ->
  q_from qy = None /\ q_to qy = None /\ q_vendor qy = None /\ q_client qy = None
  /\ q_category qy = None /\ q_status qy = None /\ q_q qy = None ->
  (forall r, In r (select_page s (q_limit qy)) ->
             exists d, row_date w (e_data r) = Ok d) ->
  list_expenses w x_api_key qy s
  = (Ok (mkPage (map expense_view (select_page s (q_limit qy))) None), s)
  /\ length (select_page s (q_limit qy))
     = Nat.min (Z.to_nat (page_size (q_limit qy))) (length (expenses s))
  /\ StronglySorted later_first (select_page s (q_limit qy)).
Proof.
  intros K F R. split; [|split].
  - unfold list_expenses. rewrite K.
    now rewrite (@collect_items_unfiltered w qy F _ R).
  - unfold select_page. rewrite length_firstn.
    now rewrite (Permutation_length (order_by_created_desc_perm (expenses s))).
  - apply firstn_sorted, order_by_created_desc_sorted.
Qed.

Lemma unfiltered_listing_is_the_page_witness :
  list_expenses Sample.noon Sample.key
    (mkQuery None None None None None None None None 0) Sample.two_expenses
  = (Ok (mkPage (map expense_view
                   (select_page Sample.two_expenses
                      (q_limit (mkQuery None None None None None None None None 0))))
                None),
     Sample.two_expenses)
  /\ select_page Sample.two_expenses 0 = [Sample.dinner].
Proof.
  split.
  - apply (@unfiltered_listing_is_the_page Sample.noon Sample.key
             (mkQuery None None None None None None None None 0)
             Sample.two_expenses eq_refl).
    + repeat split.
    + vm_compute select_page. intros r [<- | []]. eexists. reflexivity.
  - vm_compute. reflexivity.
Defined.

(** ** Aliases *)

Section AliasFacts.

Import Aliases.

Lemma select_alias_app t row kind a :
  select_alias (t ++ [row]) kind a
  = match select_alias t kind a with
    | Some r => Some r
    | None =>
        if String.eqb (a_kind row) kind && String.eqb (a_alias row) a
        then Some row else None
    end.
Proof.
  unfold select_alias. induction t as [|x l IH]; cbn [app find]; [reflexivity|].
  destruct (String.eqb (a_kind x) kind && String.eqb (a_alias x) a);
    [reflexivity | exact IH].
Qed.

Lemma select_alias_none t kind a :
  select_alias t kind a = None ->
  ~ In (kind, a) (map (fun r => (a_kind r, a_alias r)) t).
Proof.
  unfold select_alias. intros H Hin.
  apply in_map_iff in Hin as (r & E & Hr). injection E as E1 E2.
  pose proof (find_none _ _ H r Hr) as F. cbn in F.
  rewrite E1, E2, !String.eqb_refl in F. discriminate.
Qed.

Lemma rowcount_zero t id : rowcount t id = 0 <-> ~ In id (map a_id t).
Proof.
  unfold rowcount. induction t as [|r l IH]; cbn [filter map In length]; [tauto|].
  destruct (String.eqb_spec (a_id r) id) as [E | N]; cbn [length].
  - split; [discriminate | intros H; exfalso; apply H; now left].
  - rewrite IH. tauto.
Qed.

Lemma ids_after_delete t id :
  ~ In id (map a_id (filter (fun r => negb (String.eqb (a_id r) id)) t)).
Proof.
  intros H. apply in_map_iff in H as (r & E & Hr).
  apply filter_In in Hr as [_ Hr]. rewrite E, String.eqb_refl in Hr. discriminate.
Qed.

Lemma insert_alias_desc_perm a l : Permutation (insert_alias_desc a l) (a :: l).
Proof.
  induction l as [|x r IH]; cbn [insert_alias_desc]; [reflexivity|].
  destruct (String.ltb (a_created_at a) (a_created_at x)); [|reflexivity].
  rewrite IH. apply perm_swap.
Qed.

Lemma sorted_aliases_perm t : Permutation (fold_right insert_alias_desc [] t) t.
Proof.
  induction t as [|x r IH]; cbn [fold_right]; [reflexivity|].
  rewrite insert_alias_desc_perm. now constructor.
Qed.

End AliasFacts.

(** X20: [create_alias] stores the alias in lower case, after the rows
    already there, and from then on a request with the same kind and the
    same alias up to case is answered 409 and writes nothing. *)
Theorem create_alias_rejects_case_variants
  (w : env) (x_api_key : option string) (req : Aliases.CreateAliasRequest)
  (t t' : Aliases.table) (row : Aliases.alias) :
  Aliases.create_alias w x_api_key req t = (Aliases.Done row, t') ->
  t' = t ++ [row]
  /\ Aliases.a_alias row = str_lower w (Aliases.ca_alias req)
  /\ Aliases.a_kind row = Aliases.kind_name (Aliases.ca_kind req)
  /\ Aliases.a_value row = Aliases.ca_value req
  /\ forall (w' : env) (req' : Aliases.CreateAliasRequest),
       Aliases.key_accepted w' x_api_key = true ->
       Aliases.ca_kind req' = Aliases.ca_kind req ->
       str_lower w' (Aliases.ca_alias req') = str_lower w (Aliases.ca_alias req) ->
       Aliases.create_alias w' x_api_key req' t'
       = (Aliases.Raised 409 "Alias already exists", t').
Proof.
  unfold Aliases.create_alias at 1.
  destruct (Aliases.key_accepted w x_api_key); [|discriminate].
  destruct (Aliases.select_alias t _ _) eqn:S; [discriminate|].
  intros H. injection H as <- <-. repeat split.
  intros w' req' K' Ek Ea. unfold Aliases.create_alias. rewrite K', Ek, Ea.
  rewrite select_alias_app, S. cbn [Aliases.a_kind Aliases.a_alias].
  now rewrite !String.eqb_refl.
Qed.

(** The scenario of the specification: Café Martinez is stored as
    café martinez, and CAFÉ MARTINEZ is then a conflict. *)
Lemma create_alias_rejects_case_variants_witness :
  Aliases.create_alias Sample.noon Sample.key AliasSample.cafe_request
    [AliasSample.acme_client]
  = (Aliases.Done AliasSample.cafe, AliasSample.two_aliases)
  /\ Aliases.a_alias AliasSample.cafe = "café martinez"
  /\ Aliases.create_alias Sample.next_day Sample.key
       (Aliases.mkCreateAlias Aliases.KVendor "CAFÉ MARTINEZ" "Other")
       AliasSample.two_aliases
     = (Aliases.Raised 409 "Alias already exists", AliasSample.two_aliases).
Proof.
  assert (Aliases.create_alias Sample.noon Sample.key AliasSample.cafe_request
            [AliasSample.acme_client]
          = (Aliases.Done AliasSample.cafe, AliasSample.two_aliases)) as H
    by (vm_compute; reflexivity).
  split; [exact H|]. split; [reflexivity|].
  refine (proj2 (proj2 (proj2 (proj2
            (@create_alias_rejects_case_variants Sample.noon Sample.key
               AliasSample.cafe_request [AliasSample.acme_client]
               AliasSample.two_aliases AliasSample.cafe H))))
            Sample.next_day
            (Aliases.mkCreateAlias Aliases.KVendor "CAFÉ MARTINEZ" "Other")
            _ _ _);
    vm_compute; reflexivity.
Defined.

(** X21: no two rows of the alias table have one kind and one alias, as
    long as requests come one after the other: [create_alias] and
    [delete_alias] keep the property, whatever they answer. *)
Theorem alias_pairs_stay_unique
  (w : env) (x_api_key : option string) (t : Aliases.table) :
  Aliases.pairs_unique t ->
  (forall req, Aliases.pairs_unique (snd (Aliases.create_alias w x_api_key req t)))
  /\ (forall id, Aliases.pairs_unique (snd (Aliases.delete_alias w x_api_key id t))).
Proof.
  intros U. split.
  - intros req. unfold Aliases.create_alias.
    destruct (Aliases.key_accepted w x_api_key); [|auto].
    destruct (Aliases.select_alias t _ _) eqn:S; [auto|].
    cbn [snd]. unfold Aliases.pairs_unique. rewrite map_app. cbn [map].
    apply NoDup_snoc; [exact U|]. cbn [Aliases.a_kind Aliases.a_alias].
    now apply select_alias_none.
  - intros id. unfold Aliases.delete_alias.
    destruct (Aliases.key_accepted w x_api_key); [|auto].
    destruct (Aliases.rowcount t id =? 0)%nat; [auto|].
    cbn [snd]. now apply NoDup_map_filter.
Qed.

Lemma two_aliases_unique : Aliases.pairs_unique AliasSample.two_aliases.
Proof.
  unfold Aliases.pairs_unique. cbn.
  repeat (constructor;
          [intros H; cbn [In] in H;
           repeat (destruct H as [H | H]; [discriminate H|]); exact H|]).
  constructor.
Qed.

(** On a table of two rows: a third alias goes in, a repeated one does not,
    and a row goes out. *)
Lemma alias_pairs_stay_unique_witness :
  Aliases.pairs_unique
    (snd (Aliases.create_alias Sample.noon Sample.key
            (Aliases.mkCreateAlias Aliases.KClient "Café Martinez" "Martinez")
            AliasSample.two_aliases))
  /\ length (snd (Aliases.create_alias Sample.noon Sample.key
                    (Aliases.mkCreateAlias Aliases.KClient "Café Martinez" "Martinez")
                    AliasSample.two_aliases)) = 3
  /\ Aliases.pairs_unique
       (snd (Aliases.create_alias Sample.noon Sample.key
               (Aliases.mkCreateAlias Aliases.KVendor "CAFÉ Martinez" "Martinez")
               AliasSample.two_aliases))
  /\ length (snd (Aliases.create_alias Sample.noon Sample.key
                    (Aliases.mkCreateAlias Aliases.KVendor "CAFÉ Martinez" "Martinez")
                    AliasSample.two_aliases)) = 2
  /\ Aliases.pairs_unique
       (snd (Aliases.delete_alias Sample.noon Sample.key "al_0123456789abcdef"
               AliasSample.two_aliases)).
Proof.
  pose proof (@alias_pairs_stay_unique Sample.noon Sample.key
                AliasSample.two_aliases two_aliases_unique) as [C D].
  split; [apply C|]. split; [reflexivity|]. split; [apply C|].
  split; [reflexivity | apply D].
Defined.

(** X22: [delete_alias] answers 404 and writes nothing when no row has the
    id; otherwise it removes the rows with the id and only them, in place,
    and a second delete of the id is answered 404. *)
Theorem delete_alias_removes_the_row
  (w : env) (x_api_key : option string) (id : string) (t : Aliases.table) :
  Aliases.key_accepted w x_api_key = true ->
  (~ In id (map Aliases.a_id t) ->
   Aliases.delete_alias w x_api_key id t = (Aliases.Raised 404 "Not found", t))
  /\ (In id (map Aliases.a_id t) ->
      let t' := filter (fun r => negb (String.eqb (Aliases.a_id r) id)) t in
      Aliases.delete_alias w x_api_key id t = (Aliases.Done (true, id), t')
      /\ ~ In id (map Aliases.a_id t')
      /\ (forall r, In r t' <-> In r t /\ Aliases.a_id r <> id)
      /\ Aliases.delete_alias w x_api_key id t'
         = (Aliases.Raised 404 "Not found", t')).
Proof.
  intros K. unfold Aliases.delete_alias. rewrite K. split.
  - intros H. apply rowcount_zero in H. now rewrite H.
  - intros H.
    set (t' := filter (fun r => negb (String.eqb (Aliases.a_id r) id)) t).
    destruct (Aliases.rowcount t id =? 0)%nat eqn:E.
    { apply Nat.eqb_eq, rowcount_zero in E. contradiction. }
    split; [reflexivity|]. split; [apply ids_after_delete|]. split.
    + intros r. unfold t'. rewrite filter_In, negb_true_iff, String.eqb_neq. tauto.
    + now rewrite (proj2 (rowcount_zero t' id) (ids_after_delete t id)).
Qed.

(** Deleting the second of two rows leaves the first; deleting it again,
    or deleting an id no row has, is answered 404. *)
Lemma delete_alias_removes_the_row_witness :
  Aliases.delete_alias Sample.noon Sample.key "al_0123456789abcdef"
    AliasSample.two_aliases
  = (Aliases.Done (true, "al_0123456789abcdef"), [AliasSample.acme_client])
  /\ Aliases.delete_alias Sample.noon Sample.key "al_0123456789abcdef"
       [AliasSample.acme_client]
     = (Aliases.Raised 404 "Not found", [AliasSample.acme_client])
  /\ Aliases.delete_alias Sample.noon Sample.key "al_ffffffffffffffff"
       AliasSample.two_aliases
     = (Aliases.Raised 404 "Not found", AliasSample.two_aliases).
Proof.
  destruct (proj2 (@delete_alias_removes_the_row Sample.noon Sample.key
                     "al_0123456789abcdef" AliasSample.two_aliases eq_refl))
    as (H1 & _ & _ & H4).
  { cbn. tauto. }
  split; [exact H1|]. split; [exact H4|].
  apply (proj1 (@delete_alias_removes_the_row Sample.noon Sample.key
                  "al_ffffffffffffffff" AliasSample.two_aliases eq_refl)).
  cbn. intros H. repeat (destruct H as [H | H]; [discriminate H|]). exact H.
Defined.

(** X23: [list_aliases] reads only: with an accepted key it never raises
    and never writes.  It returns stored rows, at most as many as the limit
    clamped to 1..200; a row returned has the kind asked for, holds the
    alias asked for, lowered, inside its alias, and holds the value asked
    for inside its value, both lowered; with no filter given it returns as
    many rows as are stored, up to the bound. *)
Theorem list_aliases_is_bounded
  (w : env) (x_api_key : option string) (q : Aliases.alias_query)
  (t : Aliases.table) :
  Aliases.key_accepted w x_api_key = true ->
  exists found,
    Aliases.list_aliases w x_api_key q t
    = (Aliases.Done (Aliases.mkAliasPage found None), t)
    /\ (forall r, In r found ->
          In r t
          /\ (forall k, Aliases.aq_kind q = Some k -> k <> EmptyString ->
                        Aliases.a_kind r = k)
          /\ (forall a, Aliases.aq_alias q = Some a -> a <> EmptyString ->
                        contains (Aliases.a_alias r) (str_lower w a) = true)
          /\ (forall v, Aliases.aq_value q = Some v -> v <> EmptyString ->
                        contains (str_lower w (Aliases.a_value r)) (str_lower w v)
                        = true))
    /\ (Z.of_nat (length found) <= page_size (Aliases.aq_limit q) <= 200)%Z
    /\ (Aliases.aq_kind q = None -> Aliases.aq_alias q = None ->
        Aliases.aq_value q = None ->
        length found
        = Nat.min (Z.to_nat (page_size (Aliases.aq_limit q))) (length t)).
Proof.
  intros K. unfold Aliases.list_aliases. rewrite K. eexists. split; [reflexivity|].
  pose proof (page_size_bounds (Aliases.aq_limit q)) as B.
  pose proof (sorted_aliases_perm t) as P.
  split; [|split].
  - intros r H. apply filter_In in H as [H1 H2].
    unfold Aliases.keep_alias in H2.
    apply andb_true_iff in H2 as [H2 Hv]. apply andb_true_iff in H2 as [Hk Ha].
    split; [|split; [|split]].
    + apply (Permutation_in _ P). unfold Aliases.select_alias_page in H1.
      rewrite <- (firstn_skipn (Z.to_nat (page_size (Aliases.aq_limit q)))
                    (fold_right Aliases.insert_alias_desc [] t)).
      apply in_or_app. now left.
    + intros k E N. rewrite E in Hk. destruct k; [congruence|].
      now apply String.eqb_eq.
    + intros a E N. rewrite E in Ha. destruct a; [congruence | exact Ha].
    + intros v E N. rewrite E in Hv. destruct v; [congruence | exact Hv].
  - pose proof (filter_length_le (Aliases.keep_alias w q)
                  (Aliases.select_alias_page t (Aliases.aq_limit q))) as L1.
    pose proof (firstn_le_length (Z.to_nat (page_size (Aliases.aq_limit q)))
                  (fold_right Aliases.insert_alias_desc [] t)) as L2.
    unfold Aliases.select_alias_page in *. lia.
  - intros E1 E2 E3.
    assert (forall l, filter (Aliases.keep_alias w q) l = l) as ->.
    { intros l. induction l as [|x r IH]; [reflexivity|].
      cbn [filter]. unfold Aliases.keep_alias at 1, Aliases.when_given.
      rewrite E1, E2, E3. cbn [andb]. now rewrite IH. }
    unfold Aliases.select_alias_page. rewrite length_firstn.
    now rewrite (Permutation_length P).
Qed.

(** [GET /aliases?alias=MART&limit=500] over the two rows returns the one
    whose alias holds mart. *)
Lemma list_aliases_is_bounded_witness :
  exists found,
    Aliases.list_aliases Sample.noon Sample.key
      (Aliases.mkAliasQuery None (Some "MART") None None 500)
      AliasSample.two_aliases
    = (Aliases.Done (Aliases.mkAliasPage found None), AliasSample.two_aliases)
    /\ found = [AliasSample.cafe].
Proof.
  destruct (@list_aliases_is_bounded Sample.noon Sample.key
              (Aliases.mkAliasQuery None (Some "MART") None None 500)
              AliasSample.two_aliases eq_refl) as (found & H & _).
  exists found. split; [exact H|].
  vm_compute in H. injection H as <-. reflexivity.
Defined.
